(** * The suggestion lifecycle manager of the AI code assistant extension

    A shallow embedding of [vscode-extension/src/services/suggestionManager.ts]
    (class [SuggestionManager]) and of the second copy of that class kept in
    the repository, whose [acceptSuggestion] and [rejectSuggestion] differ.

    The class talks to the editor host through the [vscode] API.  The host is
    modelled as an explicit state (documents, editor views, decorations, diff
    tabs, notifications) together with the answers it gives to the calls that
    can fail.  The methods of the class are written in a small monad of
    asynchronous programs whose nodes are either synchronous actions or
    awaited host calls; an awaited call is a suspension point.  Two
    interpreters are given: [run] executes one call to completion, [advance]
    executes one slice (up to the next suspension) so that several calls can
    be interleaved the way the single-threaded event loop interleaves them. *)

From Stdlib Require Import Ascii String.
From stdpp Require Import gmap strings list.

Set Default Proof Using "Type".
Open Scope string_scope.
Open Scope list_scope.

(* Message texts are concatenations of literals: let them compute. *)
#[local] Arguments String.append !_ _ / : simpl nomatch.

(** ** Text and ranges

    A [vscode.Range] is modelled as a pair of offsets into the text of the
    document (the start is included, the end is not). *)

Record Range := mkRange { rstart : nat; rend : nat }.

#[global] Instance Range_eq_dec : EqDecision Range.
Proof. solve_decision. Defined.

Fixpoint str_take (n : nat) (s : string) : string :=
  match n, s with
  | S n', String c s' => String c (str_take n' s')
  | _, _ => EmptyString
  end.

Fixpoint str_drop (n : nat) (s : string) : string :=
  match n, s with
  | S n', String _ s' => str_drop n' s'
  | _, _ => s
  end.

(** [TextDocument.getText(range)]. *)
Definition getText (r : Range) (text : string) : string :=
  str_take (rend r - rstart r) (str_drop (rstart r) text).

(** The effect of [editBuilder.replace(range, newCode)] on the text. *)
Definition replaceRange (r : Range) (newCode : string) (text : string) : string :=
  str_take (rstart r) text +:+ newCode +:+ str_drop (rend r) text.

(** ** Editor host objects *)

(** A [vscode.TextEditor]: one live view, bound to the document it shows.
    Documents are identified by their URI. *)
Record TextEditor := mkEditor { editorId : nat; document : string }.

#[global] Instance TextEditor_eq_dec : EqDecision TextEditor.
Proof. solve_decision. Defined.

(** A diff tab opened by the [vscode.diff] command. *)
Record DiffView := mkDiff {
  leftUri : string;
  rightUri : string;
  originalCode : string;
  proposedCode : string
}.

Inductive Notification :=
| Information (message : string) (items : list string)
| Warning (message : string)
| ErrorMessage (message : string).

(** The callback handed to [setTimeout] by [showSuggestion], as data: it
    highlights [range] in a visible editor of the document [uri]. *)
Inductive Timer :=
| HighlightOriginal (uri : string) (range : Range).

(** A JavaScript [Error]. *)
Record Exn := JsError { message : string }.

(** Host calls, as they are recorded in the journal of the host. *)
Inductive HostCall :=
| CloseAllEditors
| OpenTextDocument (uri : string) (resolved : bool)
| ShowTextDocument (uri : string) (shown : option nat)
| Edit (editor : TextEditor) (range : Range) (text : string) (applied : option bool)
| Save (uri : string) (saved : bool)
| Diff (left right : string) (opened : bool)
| SetDecorations (editor : nat) (ranges : list Range)
| SetContext (value : bool)
| DisposeDecorationType
| FocusChatView.

(** ** State *)

(** The pending suggestion, as the class stores it. *)
Record Suggestion := mkSuggestion {
  editor : TextEditor;
  range : Range;
  newCode : string;
  explanation : string
}.

(** The fields of the class: [currentSuggestion], [decorationType] (only
    whether it has been disposed matters) and [context.subscriptions]. *)
Record Manager := mkManager {
  currentSuggestion : option Suggestion;
  decorationTypeDisposed : bool;
  subscriptions : list string
}.

(** [workspace.getConfiguration('aiCodeAssistant')]; [None] is a key with no
    value ([undefined]). *)
Record Configuration := mkConfiguration {
  showInlineDecorations : option bool;
  autoSave : option bool;
  backendUrl : option string;
  customRules : option string;
  defaultFocus : option string
}.

Record Workspace := mkWorkspace {
  documents : gmap string string;      (* text of every document the host can resolve *)
  disk : gmap string string;           (* what [save] has persisted *)
  textDocuments : list string;         (* [workspace.textDocuments] *)
  configuration : Configuration
}.

Record Window := mkWindow {
  visibleTextEditors : list TextEditor;
  activeTextEditor : option TextEditor;
  nextEditorId : nat;
  decorations : gmap nat (list Range); (* ranges highlighted with [decorationType], per editor *)
  diffViews : list DiffView
}.

Record Ui := mkUi {
  notifications : list Notification;   (* oldest first *)
  outputChannels : list (string * list string);
                                       (* every output channel created, by name, oldest first *)
  console : list string;
  hasSuggestion : bool;                (* context key [aiCodeAssistant.hasSuggestion] *)
  timers : list Timer                  (* callbacks registered with [setTimeout] *)
}.

(** Answers of the host to the calls that can fail, and the workbench
    setting that decides whether a preview tab is reused. *)
Record Conduct := mkConduct {
  acceptsEdit : string -> bool;
  savesOk : string -> bool;
  opensDiff : string -> bool;
  enablePreview : bool
}.

Record State := mkState {
  manager : Manager;
  workspace : Workspace;
  window : Window;
  ui : Ui;
  conduct : Conduct;
  journal : list HostCall              (* oldest first *)
}.

(** *** Field updates *)

Definition on_manager (f : Manager -> Manager) (st : State) : State :=
  mkState (f (manager st)) (workspace st) (window st) (ui st) (conduct st) (journal st).
Definition on_workspace (f : Workspace -> Workspace) (st : State) : State :=
  mkState (manager st) (f (workspace st)) (window st) (ui st) (conduct st) (journal st).
Definition on_window (f : Window -> Window) (st : State) : State :=
  mkState (manager st) (workspace st) (f (window st)) (ui st) (conduct st) (journal st).
Definition on_ui (f : Ui -> Ui) (st : State) : State :=
  mkState (manager st) (workspace st) (window st) (f (ui st)) (conduct st) (journal st).
Definition record (c : HostCall) (st : State) : State :=
  mkState (manager st) (workspace st) (window st) (ui st) (conduct st) (journal st ++ [c]).

Definition with_currentSuggestion (v : option Suggestion) (m : Manager) : Manager :=
  mkManager v (decorationTypeDisposed m) (subscriptions m).
Definition with_decorationTypeDisposed (v : bool) (m : Manager) : Manager :=
  mkManager (currentSuggestion m) v (subscriptions m).
Definition with_subscriptions (v : list string) (m : Manager) : Manager :=
  mkManager (currentSuggestion m) (decorationTypeDisposed m) v.

Definition with_documents (v : gmap string string) (w : Workspace) : Workspace :=
  mkWorkspace v (disk w) (textDocuments w) (configuration w).
Definition with_disk (v : gmap string string) (w : Workspace) : Workspace :=
  mkWorkspace (documents w) v (textDocuments w) (configuration w).
Definition with_textDocuments (v : list string) (w : Workspace) : Workspace :=
  mkWorkspace (documents w) (disk w) v (configuration w).

Definition with_editors (vis : list TextEditor) (act : option TextEditor) (w : Window) : Window :=
  mkWindow vis act (nextEditorId w) (decorations w) (diffViews w).
Definition with_nextEditorId (v : nat) (w : Window) : Window :=
  mkWindow (visibleTextEditors w) (activeTextEditor w) v (decorations w) (diffViews w).
Definition with_decorations (v : gmap nat (list Range)) (w : Window) : Window :=
  mkWindow (visibleTextEditors w) (activeTextEditor w) (nextEditorId w) v (diffViews w).
Definition with_diffViews (v : list DiffView) (w : Window) : Window :=
  mkWindow (visibleTextEditors w) (activeTextEditor w) (nextEditorId w) (decorations w) v.

Definition with_notifications (v : list Notification) (u : Ui) : Ui :=
  mkUi v (outputChannels u) (console u) (hasSuggestion u) (timers u).
Definition with_outputChannels (v : list (string * list string)) (u : Ui) : Ui :=
  mkUi (notifications u) v (console u) (hasSuggestion u) (timers u).
Definition with_console (v : list string) (u : Ui) : Ui :=
  mkUi (notifications u) (outputChannels u) v (hasSuggestion u) (timers u).
Definition with_hasSuggestion (v : bool) (u : Ui) : Ui :=
  mkUi (notifications u) (outputChannels u) (console u) v (timers u).
Definition with_timers (v : list Timer) (u : Ui) : Ui :=
  mkUi (notifications u) (outputChannels u) (console u) (hasSuggestion u) v.

(** ** Asynchronous programs

    [Sync] is a synchronous step; [Await] is a host call whose completion is
    awaited: the call is issued, the task is suspended, and the continuation
    is resumed with the result in a later turn of the event loop. *)

Inductive Async (A : Type) : Type :=
| Ret (a : A)
| Throw (e : Exn)
| Sync {R : Type} (act : State -> R * State) (k : R -> Async A)
| Await {R : Type} (act : State -> R * State) (k : R -> Async A).

Arguments Ret {A} a.
Arguments Throw {A} e.
Arguments Sync {A R} act k.
Arguments Await {A R} act k.

Fixpoint bind {A B : Type} (p : Async A) (f : A -> Async B) : Async B :=
  match p with
  | Ret a => f a
  | Throw e => Throw e
  | Sync act k => Sync act (fun r => bind (k r) f)
  | Await act k => Await act (fun r => bind (k r) f)
  end.

Declare Scope async_scope.
Delimit Scope async_scope with async.
Bind Scope async_scope with Async.
Notation "x <- p ;; q" := (bind p (fun x => q))
  (at level 100, p at next level, right associativity) : async_scope.
Notation "p ;; q" := (bind p (fun _ => q))
  (at level 100, right associativity) : async_scope.
Open Scope async_scope.

(** [try { p } catch (error) { handler error }] *)
Fixpoint try_catch {A : Type} (p : Async A) (handler : Exn -> Async A) : Async A :=
  match p with
  | Ret a => Ret a
  | Throw e => handler e
  | Sync act k => Sync act (fun r => try_catch (k r) handler)
  | Await act k => Await act (fun r => try_catch (k r) handler)
  end.

(** [try { p } finally { fin }] *)
Definition try_finally {A : Type} (p : Async A) (fin : Async unit) : Async A :=
  o <- try_catch (a <- p ;; Ret (inr a)) (fun e => Ret (inl e)) ;;
  fin ;;
  match o with
  | inl e => Throw e
  | inr a => Ret a
  end.

(** Lifting of a host call that may reject: [await call]. *)
Definition await {R : Type} (call : State -> (Exn + R) * State) : Async R :=
  Await call (fun o => match o with inl e => Throw e | inr r => Ret r end).

Definition sync {R : Type} (act : State -> R * State) : Async R := Sync act Ret.

(** One call run to completion, nothing else scheduled in between. *)
Fixpoint run {A : Type} (p : Async A) (st : State) : (Exn + A) * State :=
  match p with
  | Ret a => (inr a, st)
  | Throw e => (inl e, st)
  | Sync act k => let '(r, st') := act st in run (k r) st'
  | Await act k => let '(r, st') := act st in run (k r) st'
  end.

(** One slice of a task: the synchronous steps up to the next awaited call,
    which is issued; what is returned is the suspended continuation. *)
Fixpoint advance {A : Type} (p : Async A) (st : State) : Async A * State :=
  match p with
  | Ret a => (Ret a, st)
  | Throw e => (Throw e, st)
  | Sync act k => let '(r, st') := act st in advance (k r) st'
  | Await act k => let '(r, st') := act st in (k r, st')
  end.

Definition finished {A : Type} (p : Async A) : bool :=
  match p with
  | Ret _ | Throw _ => true
  | _ => false
  end.

(** The event loop: [schedule] names, turn by turn, the task that gets the
    next slice.  A task that has not run yet starts with its first slice. *)
Fixpoint interleave (schedule : list nat) (tasks : list (Async unit)) (st : State)
  : list (Async unit) * State :=
  match schedule with
  | [] => (tasks, st)
  | i :: rest =>
      match tasks !! i with
      | Some p => let '(p', st') := advance p st in interleave rest (<[i := p']> tasks) st'
      | None => interleave rest tasks st
      end
  end.

(** A task alone on the event loop: [n] slices in a row. *)
Fixpoint slices {A : Type} (n : nat) (p : Async A) (st : State) : Async A * State :=
  match n with
  | 0 => (p, st)
  | S n' => let '(p', st') := advance p st in slices n' p' st'
  end.

(** ** Host primitives *)

Definition anyEditorOf (uri : string) (editors : list TextEditor) : option TextEditor :=
  List.find (fun e => bool_decide (document e = uri)) editors.

(** [editor.setDecorations(this.decorationType, ranges)] *)
Definition setDecorations (e : TextEditor) (ranges : list Range) : Async unit :=
  sync (fun st =>
    (tt, record (SetDecorations (editorId e) ranges)
           (on_window (fun w => with_decorations (<[editorId e := ranges]> (decorations w)) w) st))).

(** [vscode.commands.executeCommand('setContext', 'aiCodeAssistant.hasSuggestion', v)],
    which the class never awaits. *)
Definition setContext (v : bool) : Async unit :=
  sync (fun st => (tt, record (SetContext v) (on_ui (with_hasSuggestion v) st))).

Definition showInformationMessage (msg : string) (items : list string) : Async unit :=
  sync (fun st => (tt, on_ui (fun u => with_notifications (notifications u ++ [Information msg items]) u) st)).

Definition showWarningMessage (msg : string) : Async unit :=
  sync (fun st => (tt, on_ui (fun u => with_notifications (notifications u ++ [Warning msg]) u) st)).

Definition showErrorMessage (msg : string) : Async unit :=
  sync (fun st => (tt, on_ui (fun u => with_notifications (notifications u ++ [ErrorMessage msg]) u) st)).

Definition console_log (line : string) : Async unit :=
  sync (fun st => (tt, on_ui (fun u => with_console (console u ++ [line]) u) st)).

(** [document.getText(range)]; a document the host does not know has no text. *)
Definition documentText (uri : string) (r : Range) : Async string :=
  sync (fun st => (getText r (default "" (documents (workspace st) !! uri)), st)).

(** [workspace.registerTextDocumentContentProvider(scheme, provider)] followed
    by pushing the registration on [context.subscriptions]. *)
Definition registerProvider (scheme : string) : Async unit :=
  sync (fun st => (tt, on_manager (fun m => with_subscriptions (subscriptions m ++ [scheme]) m) st)).

Definition sameTab (a b : DiffView) : bool :=
  bool_decide (leftUri a = leftUri b) && bool_decide (rightUri a = rightUri b).

(** The [vscode.diff] command with [{ preview: true }].  When the host opens
    the tab, it takes the place of the editor that had the focus; with
    [enablePreview] it replaces the preview tabs opened before, otherwise
    only a tab on the same two URIs is reused.  The two sides of a diff tab
    show virtual documents and are not counted among [visibleTextEditors];
    while the tab has the focus no editor of a workspace document is active. *)
Definition vscode_diff (dv : DiffView) : State -> (Exn + unit) * State :=
  fun st =>
    if opensDiff (conduct st) (leftUri dv) then
      let w := window st in
      let kept := if enablePreview (conduct st) then []
                  else List.filter (fun d => negb (sameTab d dv)) (diffViews w) in
      let vis := match activeTextEditor w with
                 | Some a => List.filter (fun e => negb (bool_decide (e = a))) (visibleTextEditors w)
                 | None => visibleTextEditors w
                 end in
      (inr tt, record (Diff (leftUri dv) (rightUri dv) true)
                 (on_window (fun w => with_diffViews (kept ++ [dv]) (with_editors vis None w)) st))
    else
      (inl (JsError "command 'vscode.diff' failed"),
       record (Diff (leftUri dv) (rightUri dv) false) st).

(** [createOutputChannel(name)] followed by [clear()], one [appendLine] per
    line and [show()]: a channel is created at each call, also when one of
    that name exists, and the channel created last is the one shown. *)
Definition showInOutputChannel (name : string) (lines : list string) : Async unit :=
  sync (fun st =>
    (tt, on_ui (fun u => with_outputChannels (outputChannels u ++ [(name, lines)]) u) st)).

Definition getConfiguration : Async Configuration :=
  sync (fun st => (configuration (workspace st), st)).

(** [config.get<boolean>(key)] used as a condition: [undefined] is falsy. *)
Definition truthy (v : option bool) : bool := default false v.

(** [setTimeout(callback, 500)] *)
Definition setTimeout (t : Timer) : Async unit :=
  sync (fun st => (tt, on_ui (fun u => with_timers (timers u ++ [t]) u) st)).

(** [executeCommand('workbench.action.closeAllEditors')]: every editor view
    and every diff tab is closed, and with the views their decorations. *)
Definition closeAllEditors : State -> (Exn + unit) * State :=
  fun st =>
    (inr tt, record CloseAllEditors
               (on_window (fun w => with_diffViews [] (with_decorations ∅ (with_editors [] None w))) st)).

(** [await new Promise(resolve => setTimeout(resolve, 100))]: a suspension
    with no effect of its own. *)
Definition sleep : State -> (Exn + unit) * State := fun st => (inr tt, st).

(** [workspace.openTextDocument(uri)]: resolves the document by its URI, or
    rejects when the host cannot. *)
Definition openTextDocument (uri : string) : State -> (Exn + string) * State :=
  fun st =>
    match documents (workspace st) !! uri with
    | Some _ =>
        let tds := textDocuments (workspace st) in
        let tds' := if bool_decide (uri ∈ tds) then tds else tds ++ [uri] in
        (inr uri, record (OpenTextDocument uri true) (on_workspace (with_textDocuments tds') st))
    | None =>
        (inl (JsError ("cannot open " +:+ uri)), record (OpenTextDocument uri false) st)
    end.

(** [window.showTextDocument(document, ...)]: an editor that already shows
    the document gets the focus, otherwise a new editor is created. *)
Definition showTextDocument (uri : string) : State -> (Exn + TextEditor) * State :=
  fun st =>
    match documents (workspace st) !! uri with
    | Some _ =>
        let w := window st in
        match anyEditorOf uri (visibleTextEditors w) with
        | Some e =>
            (inr e, record (ShowTextDocument uri (Some (editorId e)))
                      (on_window (with_editors (visibleTextEditors w) (Some e)) st))
        | None =>
            let e := mkEditor (nextEditorId w) uri in
            (inr e, record (ShowTextDocument uri (Some (editorId e)))
                      (on_window (fun w => with_nextEditorId (S (nextEditorId w))
                                             (with_editors (visibleTextEditors w ++ [e]) (Some e) w)) st))
        end
    | None =>
        (inl (JsError ("cannot show " +:+ uri)), record (ShowTextDocument uri None) st)
    end.

(** [editor.edit(editBuilder => editBuilder.replace(range, newCode))]: rejects
    on an editor that has been closed; otherwise resolves to whether the host
    applied the edit. *)
Definition edit (e : TextEditor) (r : Range) (text : string) : State -> (Exn + bool) * State :=
  fun st =>
    if bool_decide (e ∈ visibleTextEditors (window st)) then
      match documents (workspace st) !! document e with
      | Some old =>
          if acceptsEdit (conduct st) (document e) then
            (inr true, record (Edit e r text (Some true))
                         (on_workspace (fun w => with_documents
                            (<[document e := replaceRange r text old]> (documents w)) w) st))
          else (inr false, record (Edit e r text (Some false)) st)
      | None => (inr false, record (Edit e r text (Some false)) st)
      end
    else
      (inl (JsError "TextEditor#edit not possible on closed editors"),
       record (Edit e r text None) st).

(** [document.save()]: resolves to whether the file was saved. *)
Definition save (uri : string) : State -> (Exn + bool) * State :=
  fun st =>
    match documents (workspace st) !! uri with
    | Some text =>
        if savesOk (conduct st) uri then
          (inr true, record (Save uri true)
                       (on_workspace (fun w => with_disk (<[uri := text]> (disk w)) w) st))
        else (inr false, record (Save uri false) st)
    | None => (inr false, record (Save uri false) st)
    end.

(** [this.decorationType.dispose()]: the decoration type is released and the
    host removes its highlights from every editor. *)
Definition disposeDecorationType : Async unit :=
  sync (fun st =>
    (tt, record DisposeDecorationType
           (on_window (with_decorations ∅)
              (on_manager (with_decorationTypeDisposed true) st)))).

Definition getCurrentSuggestion : Async (option Suggestion) :=
  sync (fun st => (currentSuggestion (manager st), st)).

Definition setCurrentSuggestion (v : option Suggestion) : Async unit :=
  sync (fun st => (tt, on_manager (with_currentSuggestion v) st)).

Definition getActiveTextEditor : Async (option TextEditor) :=
  sync (fun st => (activeTextEditor (window st), st)).

Definition getVisibleTextEditors : Async (list TextEditor) :=
  sync (fun st => (visibleTextEditors (window st), st)).

Definition getTextDocuments : Async (list string) :=
  sync (fun st => (textDocuments (workspace st), st)).

(** ** The class [SuggestionManager] *)

Definition nl : string := String "010"%char EmptyString.

(** [await p] for a call [p] of an [async] method of the class: the
    suspension points of [p], then one more when its promise settles. *)
Definition await_call {A : Type} (p : Async A) : Async A :=
  r <- p ;; Await (fun st => (tt, st)) (fun _ => Ret r).

(** [private clearDecorations()] *)
Definition clearDecorations : Async unit :=
  cur <- getCurrentSuggestion ;;
  match cur with
  | Some s => setDecorations (editor s) []
  | None => Ret tt
  end.

(** [private cleanup()] *)
Definition cleanup : Async unit :=
  clearDecorations ;;
  setCurrentSuggestion None ;;
  setContext false.

(** [private async showDiff(originalDoc, range, newCode)].  The file name of
    the document is its URI; the two content providers serve [originalCode]
    and [newCode], which is what the diff tab shows. *)
Definition showDiff (originalDoc : string) (range : Range) (newCode : string) : Async unit :=
  try_catch
    (originalCode <- documentText originalDoc range ;;
     let leftUri := "ai-original:" +:+ originalDoc in
     let rightUri := "ai-suggestion:" +:+ originalDoc in
     registerProvider "ai-original" ;;
     registerProvider "ai-suggestion" ;;
     await (vscode_diff (mkDiff leftUri rightUri originalCode newCode)))
    (fun error =>
       console_log ("Failed to show diff: " +:+ message error) ;;
       showInOutputChannel "AI Suggestion" ["=== SUGGESTED CODE ==="; newCode]).

(** [async showSuggestion(editor, range, newCode, explanation)].  The
    notification is not awaited; its continuation runs only if the user picks
    'Show Full Explanation', a later event that is outside this call. *)
Definition showSuggestion (editor : TextEditor) (range : Range) (newCode explanation : string)
  : Async unit :=
  clearDecorations ;;
  setCurrentSuggestion (Some (mkSuggestion editor range newCode explanation)) ;;
  setContext true ;;
  await_call (showDiff (document editor) range newCode) ;;
  showInformationMessage
    ("💡 " +:+ explanation +:+ nl +:+ nl
       +:+ "Review the diff and press Ctrl+Enter to accept or Esc to reject")
    ["Show Full Explanation"] ;;
  config <- getConfiguration ;;
  if truthy (showInlineDecorations config) then
    try_catch
      (setTimeout (HighlightOriginal (document editor) range))
      (fun error => console_log ("Could not set decorations: " +:+ message error))
  else Ret tt.

(** The body of the callback that [showSuggestion] hands to [setTimeout]. *)
Definition timerCallback (t : Timer) : Async unit :=
  match t with
  | HighlightOriginal uri range =>
      visible <- getVisibleTextEditors ;;
      match anyEditorOf uri visible with
      | Some originalEditor => setDecorations originalEditor [range]
      | None => Ret tt
      end
  end.

(** The event loop fires the oldest timer. *)
Definition fireTimer (st : State) : State :=
  match timers (ui st) with
  | [] => st
  | t :: rest => snd (run (timerCallback t) (on_ui (with_timers rest) st))
  end.

(** [async acceptSuggestion()] of [services/suggestionManager.ts]. *)
Definition acceptSuggestion : Async unit :=
  cur <- getCurrentSuggestion ;;
  match cur with
  | None => showWarningMessage "No suggestion to accept"
  | Some (mkSuggestion editor range newCode _) =>
      try_catch
        (await closeAllEditors ;;
         await sleep ;;
         doc <- await (openTextDocument (document editor)) ;;
         newEditor <- await (showTextDocument doc) ;;
         success <- await (edit newEditor range newCode) ;;
         (if negb success then Throw (JsError "Failed to apply edit") else Ret tt) ;;
         config <- getConfiguration ;;
         (if default true (autoSave config)
          then _ <- await (save doc) ;; Ret tt
          else Ret tt) ;;
         showInformationMessage "✓ AI suggestion accepted and applied!" [] ;;
         cleanup)
        (fun error =>
           showErrorMessage ("Error applying suggestion: " +:+ message error) ;;
           console_log ("Error applying suggestion: " +:+ message error) ;;
           try_catch
             (_ <- await (openTextDocument (document editor)) ;;
              _ <- await (showTextDocument (document editor)) ;;
              Ret tt)
             (fun reopenError =>
                console_log ("Could not reopen document: " +:+ message reopenError)))
  end.

(** [async rejectSuggestion()] of [services/suggestionManager.ts]. *)
Definition rejectSuggestion : Async unit :=
  cur <- getCurrentSuggestion ;;
  match cur with
  | None => Ret tt
  | Some (mkSuggestion editor _ _ _) =>
      try_finally
        (try_catch
           (await closeAllEditors ;;
            _ <- await (openTextDocument (document editor)) ;;
            _ <- await (showTextDocument (document editor)) ;;
            showInformationMessage "AI suggestion rejected" [])
           (fun error => console_log ("Error rejecting suggestion: " +:+ message error)))
        cleanup
  end.

(** [dispose()] *)
Definition dispose : Async unit :=
  clearDecorations ;;
  disposeDecorationType.

(** [hasPendingSuggestion()] of the interface: what the trigger layer reads
    is the context key. *)
Definition hasPendingSuggestion (st : State) : bool := hasSuggestion (ui st).

(** The second copy of the class in the repository.  It differs from the
    first in [acceptSuggestion] and [rejectSuggestion] only. *)
Module Alt.

Definition acceptSuggestion : Async unit :=
  cur <- getCurrentSuggestion ;;
  match cur with
  | None => showWarningMessage "No suggestion to accept"
  | Some (mkSuggestion editor range newCode _) =>
      try_catch
        (activeEditor <- getActiveTextEditor ;;
         let targetEditor :=
           match activeEditor with
           | Some a => if bool_decide (document a = document editor) then a else editor
           | None => editor
           end in
         openDocs <- getTextDocuments ;;
         let isDocumentOpen :=
           existsb (fun doc => bool_decide (doc = document editor)) openDocs in
         (if negb isDocumentOpen then
            doc <- await (openTextDocument (document editor)) ;;
            newEditor <- await (showTextDocument doc) ;;
            _ <- await (edit newEditor range newCode) ;;
            config <- getConfiguration ;;
            if truthy (autoSave config)
            then _ <- await (save doc) ;; Ret tt
            else Ret tt
          else
            _ <- await (edit targetEditor range newCode) ;;
            config <- getConfiguration ;;
            if truthy (autoSave config)
            then _ <- await (save (document targetEditor)) ;; Ret tt
            else Ret tt) ;;
         showInformationMessage "✓ AI suggestion accepted!" [] ;;
         cleanup)
        (fun error =>
           showErrorMessage ("Failed to apply suggestion: " +:+ message error) ;;
           console_log ("Error applying suggestion: " +:+ message error))
  end.

Definition rejectSuggestion : Async unit :=
  cur <- getCurrentSuggestion ;;
  match cur with
  | None => Ret tt
  | Some _ =>
      showInformationMessage "AI suggestion rejected" [] ;;
      cleanup
  end.

End Alt.

(** ** JavaScript strings that may be missing

    [None] is [undefined].  In a condition and on the left of [||] the
    empty string counts as false, like [undefined]. *)

Definition truthyString (v : option string) : bool :=
  match v with
  | Some (String _ _) => true
  | _ => false
  end.

(** [v || w], both of which may be missing. *)
Definition or_else (v w : option string) : option string :=
  if truthyString v then v else w.

(** [v || 'literal'] *)
Definition or_default (v : option string) (literal : string) : string :=
  match v with
  | Some (String c s) => String c s
  | _ => literal
  end.

(** [v === 'literal'] *)
Definition strictEquals (v : option string) (literal : string) : bool :=
  match v with
  | Some s => String.eqb s literal
  | None => false
  end.

(** [s.repeat(n)] *)
Fixpoint repeat_string (s : string) (n : nat) : string :=
  match n with
  | 0 => EmptyString
  | S n' => s +:+ repeat_string s n'
  end.

(** [s.replace(pattern, replacement)] with a string as pattern: the first
    occurrence is replaced. *)
Fixpoint replace_first (pattern replacement s : string) : string :=
  if String.prefix pattern s then replacement +:+ str_drop (String.length pattern) s
  else match s with
       | EmptyString => EmptyString
       | String c s' => String c (replace_first pattern replacement s')
       end.

(** [s.toUpperCase()] on the letters [a] to [z]; the other bytes are kept. *)
Definition upper (c : ascii) : ascii :=
  let n := nat_of_ascii c in
  if (97 <=? n)%nat && (n <=? 122)%nat then ascii_of_nat (n - 32) else c.

Fixpoint toUpperCase (s : string) : string :=
  match s with
  | EmptyString => EmptyString
  | String c s' => String (upper c) (toUpperCase s')
  end.

(** ** The AI service, [services/aiService.ts] *)

Module AIService.

(** [response.data], the JSON object the backend answers with: the members
    that the service reads. *)
Record ResponseData := mkData {
  data_review : option string;
  data_fixed_code : option string;
  data_effort_estimation_minutes : option Z;
  data_error : option string;
  data_ai_response : option string
}.

(** [interface AIResponse] *)
Record AIResponse := mkResponse {
  review : option string;
  explanation : option string;
  code : option string;
  fixed_code : option string;
  effort_estimation_minutes : option Z
}.

Definition with_review (v : option string) (r : AIResponse) : AIResponse :=
  mkResponse v (explanation r) (code r) (fixed_code r) (effort_estimation_minutes r).
Definition with_explanation (v : option string) (r : AIResponse) : AIResponse :=
  mkResponse (review r) v (code r) (fixed_code r) (effort_estimation_minutes r).
Definition with_code (v : option string) (r : AIResponse) : AIResponse :=
  mkResponse (review r) (explanation r) v (fixed_code r) (effort_estimation_minutes r).
Definition with_fixed_code (v : option string) (r : AIResponse) : AIResponse :=
  mkResponse (review r) (explanation r) (code r) v (effort_estimation_minutes r).
Definition with_effort_estimation_minutes (v : option Z) (r : AIResponse) : AIResponse :=
  mkResponse (review r) (explanation r) (code r) (fixed_code r) v.

(** What a failed [axios.post] throws: [error.code], [error.response] with
    its data, whether [error.request] is set, and [error.message]. *)
Record AxiosError := mkAxiosError {
  error_code : option string;
  error_response : option ResponseData;
  error_request : bool;
  error_message : option string
}.

Inductive AxiosOutcome :=
| Responded (data : ResponseData)
| Failed (error : AxiosError).

(** What [languageMap[vscodeLanguage] || 'python'] evaluates to: a language
    of the backend, or, for a name that every object inherits, that member
    of [Object.prototype]. *)
Inductive Mapped :=
| Language (name : string)
| Inherited (member : string).

(** The body of the request to [/api/review/] and the URL it is posted to. *)
Record ReviewRequest := mkRequest {
  url : string;
  body_code : string;
  body_language : Mapped;
  body_focus : string;
  body_auto_fix : bool;
  body_custom_rules : string;
  body_estimate_effort : bool
}.

(** The body of the request to [/api/follow-up/]. *)
Record FollowUpRequest := mkFollowUp {
  follow_url : string;
  original_code : string;
  original_review : string;
  user_question : string;
  follow_language : Mapped
}.

(** [private getBackendUrl()] *)
Definition getBackendUrl : Async string :=
  config <- getConfiguration ;;
  Ret (or_default (backendUrl config) "http://127.0.0.1:8000").

(** [private getCustomRules()] *)
Definition getCustomRules : Async string :=
  config <- getConfiguration ;;
  Ret (or_default (customRules config) EmptyString).

(** [private getDefaultFocus()] *)
Definition getDefaultFocus : Async string :=
  config <- getConfiguration ;;
  Ret (or_default (defaultFocus config) "general").

(** [private buildPrompt(code, language, action)] *)
Definition buildPrompt (code language action : string) : string :=
  if String.eqb action "explain" then
    "Explain what this " +:+ language +:+ " code does:" +:+ nl +:+ nl +:+ code
  else if String.eqb action "fix" then code
  else if String.eqb action "document" then code
  else if String.eqb action "refactor" then code
  else if String.eqb action "test" then code
  else if String.eqb action "review" then code
  else code.

(** [private parseResponse(data, action)] *)
Definition parseResponse (data : ResponseData) (action : string) : AIResponse :=
  let result := mkResponse None None None None None in
  let result :=
    if truthyString (data_review data) then
      if String.eqb action "explain" then with_explanation (data_review data) result
      else with_review (data_review data) result
    else result in
  let result :=
    if truthyString (data_fixed_code data) then
      with_code (data_fixed_code data) (with_fixed_code (data_fixed_code data) result)
    else result in
  let result :=
    match data_effort_estimation_minutes data with
    | Some 0%Z | None => result
    | Some minutes => with_effort_estimation_minutes (Some minutes) result
    end in
  if String.eqb action "document" then with_explanation (Some "Documentation added") result
  else if String.eqb action "test" then with_explanation (Some "Unit tests generated") result
  else if String.eqb action "refactor" then with_explanation (Some "Code refactored") result
  else result.

(** The table of [private mapLanguage(vscodeLanguage)]. *)
Definition languageMap : list (string * string) :=
  [("javascript", "javascript"); ("typescript", "typescript"); ("python", "python");
   ("java", "java"); ("csharp", "csharp"); ("go", "go"); ("rust", "rust");
   ("cpp", "cpp"); ("c", "cpp"); ("php", "php"); ("ruby", "ruby");
   ("swift", "swift"); ("kotlin", "kotlin"); ("scala", "scala")].

(** The names that an object literal inherits from [Object.prototype]; the
    value found under each of them is an object or a function, which [||]
    takes as true. *)
Definition objectPrototype : list string :=
  ["constructor"; "__defineGetter__"; "__defineSetter__"; "hasOwnProperty";
   "__lookupGetter__"; "__lookupSetter__"; "isPrototypeOf"; "propertyIsEnumerable";
   "toString"; "valueOf"; "__proto__"; "toLocaleString"].

Fixpoint ownProperty (key : string) (table : list (string * string)) : option string :=
  match table with
  | [] => None
  | (k, v) :: rest => if String.eqb key k then Some v else ownProperty key rest
  end.

(** [private mapLanguage(vscodeLanguage)] *)
Definition mapLanguage (vscodeLanguage : string) : Mapped :=
  match ownProperty vscodeLanguage languageMap with
  | Some name => Language (or_default (Some name) "python")
  | None =>
      if existsb (String.eqb vscodeLanguage) objectPrototype
      then Inherited vscodeLanguage
      else Language "python"
  end.

(** The handler of [processCode]: the message of the error it throws. *)
Definition processCodeError (backendUrl : string) (error : AxiosError) : string :=
  if strictEquals (error_code error) "ECONNREFUSED" then
    "Cannot connect to backend. Make sure Django is running on " +:+ backendUrl
  else
    match error_response error with
    | Some data => or_default (data_error data) "Backend error"
    | None =>
        if error_request error then "No response from backend. Check your connection."
        else or_default (error_message error) "Unknown error"
    end.

(** The request that [processCode] posts. *)
Definition reviewRequest (backendUrl customRules focus code language action : string)
  : ReviewRequest :=
  let prompt := buildPrompt code language action in
  let needsCodeGeneration :=
    existsb (String.eqb action) ["fix"; "refactor"; "document"; "test"] in
  mkRequest (backendUrl +:+ "/api/review/")
            (if needsCodeGeneration then code else prompt)
            (mapLanguage language)
            (if String.eqb action "review" then focus else "general")
            needsCodeGeneration
            customRules
            (String.eqb action "review").

(** [async processCode(code, language, action)].  [post] is [axios.post] on
    the review endpoint: what the backend answers to a request.  Of the
    statements of the [try] block the call to [axios.post] is the only one
    that can throw, so that the handler applies to its failure. *)
Definition processCode (post : ReviewRequest -> AxiosOutcome) (code language action : string)
  : Async AIResponse :=
  backendUrl <- getBackendUrl ;;
  customRules <- getCustomRules ;;
  focus <- getDefaultFocus ;;
  outcome <- Await (fun st =>
               (post (reviewRequest backendUrl customRules focus code language action), st))
             Ret ;;
  match outcome with
  | Responded data => Ret (parseResponse data action)
  | Failed error => Throw (JsError (processCodeError backendUrl error))
  end.

(** The handler of [askQuestion]:
    [error.response?.data?.error || error.message || 'Failed to get AI response']. *)
Definition askQuestionError (error : AxiosError) : string :=
  or_default
    (or_else (match error_response error with
              | Some data => data_error data
              | None => None
              end)
             (error_message error))
    "Failed to get AI response".

(** [async askQuestion(code, language, question, previousReview)] *)
Definition askQuestion (post : FollowUpRequest -> AxiosOutcome)
    (code language question : string) (previousReview : option string) : Async string :=
  backendUrl <- getBackendUrl ;;
  outcome <- Await (fun st =>
               (post (mkFollowUp (backendUrl +:+ "/api/follow-up/") code
                                 (or_default previousReview "No previous review")
                                 question (mapLanguage language)), st))
             Ret ;;
  match outcome with
  | Responded data => Ret (or_default (data_ai_response data) "No response from AI")
  | Failed error => Throw (JsError (askQuestionError error))
  end.

End AIService.

(** ** The commands of the extension, [extension.ts] *)

Module Extension.

(** [async function showInOutputPanel(content, type)] *)
Definition showInOutputPanel (content type : string) : Async unit :=
  showInOutputChannel ("AI: " +:+ toUpperCase type)
    [repeat_string "=" 80;
     "AI " +:+ toUpperCase type;
     repeat_string "=" 80;
     EmptyString;
     content;
     EmptyString;
     repeat_string "=" 80].

Section Session.

(** What the session supplies to a command: the backend, the selection of
    the active editor and the language of its document, and whether the
    user cancels the progress notification while the request is pending. *)
Variable post : AIService.ReviewRequest -> AIService.AxiosOutcome.
Variable selection : Range.
Variable languageId : string.
Variable isCancellationRequested : bool.

(** [selection.isEmpty] *)
Definition isEmpty (r : Range) : bool := bool_decide (rstart r = rend r).

(** [async function handleAICommand(type, progressMessage)].  The reports
    of progress change nothing of the state and are left out. *)
Definition handleAICommand (type progressMessage : string) : Async unit :=
  active <- getActiveTextEditor ;;
  match active with
  | None => showErrorMessage "No active editor found"
  | Some editor =>
      if isEmpty selection then showWarningMessage "Please select code first"
      else
        selectedText <- documentText (document editor) selection ;;
        await_call
          (try_catch
             (result <- await_call (AIService.processCode post selectedText languageId type) ;;
              if isCancellationRequested then Ret tt
              else
                (if String.eqb type "explain" || String.eqb type "review" then
                   let message :=
                     or_default (or_else (AIService.explanation result)
                                         (AIService.review result))
                                "No response from AI" in
                   await_call (showInOutputPanel message type)
                 else
                   await_call
                     (showSuggestion editor selection
                        (or_default (or_else (AIService.code result)
                                             (AIService.fixed_code result))
                                    selectedText)
                        (or_default (AIService.explanation result) "AI-generated code"))) ;;
                showInformationMessage
                  ("✓ " +:+ replace_first "..." EmptyString progressMessage +:+ " complete!") [])
             (fun error => showErrorMessage ("AI Error: " +:+ message error)))
  end.

(** The commands that [registerCommands] registers. *)
Inductive Command :=
| explainCode
| fixCode
| addDocumentation
| refactorCode
| reviewCode
| generateTests
| openChat
| acceptSuggestionCommand
| rejectSuggestionCommand.

(** The callback that [registerCommands] registers for each command. *)
Definition executeCommand (command : Command) : Async unit :=
  match command with
  | explainCode => await_call (handleAICommand "explain" "Explaining code...")
  | fixCode => await_call (handleAICommand "fix" "Analyzing and fixing code...")
  | addDocumentation => await_call (handleAICommand "document" "Generating documentation...")
  | refactorCode => await_call (handleAICommand "refactor" "Refactoring code...")
  | reviewCode => await_call (handleAICommand "review" "Reviewing code quality...")
  | generateTests => await_call (handleAICommand "test" "Generating unit tests...")
  | openChat => sync (fun st => (tt, record FocusChatView st))
  | acceptSuggestionCommand => await_call acceptSuggestion
  | rejectSuggestionCommand => await_call rejectSuggestion
  end.

End Session.

(** [export function deactivate()]: the manager exists once the extension
    has been activated. *)
Definition deactivate (activated : bool) : Async unit :=
  if activated then dispose else Ret tt.

End Extension.

(** ** Observations *)

(** The state in which a call leaves the host and the class, and whether the
    call completed without an uncaught exception. *)
Definition after {A : Type} (p : Async A) (st : State) : State := snd (run p st).
Definition completes {A : Type} (p : Async A) (st : State) : Prop :=
  exists a, fst (run p st) = inr a.

Definition isEdit (c : HostCall) : bool :=
  match c with Edit _ _ _ _ => true | _ => false end.
Definition isAppliedEdit (c : HostCall) : bool :=
  match c with Edit _ _ _ (Some true) => true | _ => false end.
Definition isSave (c : HostCall) : bool :=
  match c with Save _ _ => true | _ => false end.

Definition editCalls (j : list HostCall) : list HostCall := List.filter isEdit j.
Definition appliedEdits (j : list HostCall) : list HostCall := List.filter isAppliedEdit j.
Definition saveCalls (j : list HostCall) : list HostCall := List.filter isSave j.

(** State [Idle] of the specification. *)
Definition idle (st : State) : Prop :=
  currentSuggestion (manager st) = None /\ hasPendingSuggestion st = false.

(** The context key agrees with the field when no suggestion is pending. *)
Definition flagConsistent (st : State) : Prop :=
  currentSuggestion (manager st) = None -> hasPendingSuggestion st = false.

(** An accept that ended with the success notification. *)
Definition accepted (st st' : State) : Prop :=
  notifications (ui st') =
  notifications (ui st) ++ [Information "✓ AI suggestion accepted and applied!" []].

(** The user gives the focus to a visible editor. *)
Definition userFocuses (e : TextEditor) (st : State) : State :=
  if bool_decide (e ∈ visibleTextEditors (window st))
  then on_window (with_editors (visibleTextEditors (window st)) (Some e)) st
  else st.

(** The context key mirrors the field: it is set exactly when a suggestion
    is pending. *)
Definition inSync (st : State) : Prop :=
  hasPendingSuggestion st =
  match currentSuggestion (manager st) with Some _ => true | None => false end.

(** The explanation that each generating command attaches to what it
    presents. *)
Definition generated (command : Extension.Command) : string :=
  match command with
  | Extension.fixCode => "AI-generated code"
  | Extension.addDocumentation => "Documentation added"
  | Extension.refactorCode => "Code refactored"
  | Extension.generateTests => "Unit tests generated"
  | _ => EmptyString
  end.

(** How a call to [acceptSuggestion] can end, [success] being the text of
    its success notification: either the manager is idle, after the success
    notification or after the warning that nothing was pending; or an error
    was shown and the pending suggestion and the context key are what they
    were. *)
Definition settled (success : string) (st st' : State) : Prop :=
  (idle st' /\
   (notifications (ui st') = notifications (ui st) ++ [Information success []] \/
    notifications (ui st') = notifications (ui st) ++ [Warning "No suggestion to accept"]))
  \/
  ((exists msg, notifications (ui st') = notifications (ui st) ++ [ErrorMessage msg]) /\
   currentSuggestion (manager st') = currentSuggestion (manager st) /\
   hasPendingSuggestion st' = hasPendingSuggestion st).

(** ** Sample sessions

    Concrete states on which the statements below are exercised. *)

(** A host that grants every request and reuses its preview tab. *)
Definition obliging : Conduct :=
  mkConduct (fun _ => true) (fun _ => true) (fun _ => true) true.

Definition alphabet : string := "0123456789abcdefghijklmnopqrstuvwxyz".

Definition view_a : TextEditor := mkEditor 1 "a.ts".

(** One document, shown in one editor that has the focus; nothing pending. *)
Definition fresh_session : State :=
  mkState (mkManager None false [])
          (mkWorkspace {[ "a.ts" := alphabet ]} ∅ ["a.ts"]
                       (mkConfiguration (Some true) (Some true) None None None))
          (mkWindow [view_a] (Some view_a) 2 ∅ [])
          (mkUi [] [] [] false [])
          obliging [].

Definition fix_a : Suggestion :=
  mkSuggestion view_a (mkRange 10 25) "fixed()" "Call the fixed routine".

(** The session after the suggestion [fix_a] has been presented: the diff
    tab has taken the place of the editor. *)
Definition presented : State :=
  after (showSuggestion (editor fix_a) (range fix_a) (newCode fix_a) (explanation fix_a))
        fresh_session.

(** The same session on a host that refuses the edit, refuses to save,
    or has lost the document. *)
Definition with_conduct (c : Conduct) (st : State) : State :=
  mkState (manager st) (workspace st) (window st) (ui st) c (journal st).

Definition refusing_edit : Conduct :=
  mkConduct (fun _ => false) (fun _ => true) (fun _ => true) true.

Definition refusing_save : Conduct :=
  mkConduct (fun _ => true) (fun _ => false) (fun _ => true) true.

(** A host that can neither open the diff tab nor apply the edit: the
    suggestion is presented with the editor still in place. *)
Definition unable : Conduct :=
  mkConduct (fun _ => false) (fun _ => true) (fun _ => false) true.

Definition presented_in_place : State :=
  after (showSuggestion (editor fix_a) (range fix_a) (newCode fix_a) (explanation fix_a))
        (with_conduct unable fresh_session).

(** The event loop gives one slice to a first call of [acceptSuggestion],
    starts a second call, lets the first call finish, then the second. *)
Definition reentrant : list nat := [0; 1; 0; 0; 0; 0; 0; 0; 1; 1; 1; 1; 1; 1].

(** A window split in two views of [a.ts] next to a view of [b.ts], on a
    host whose tabs are not previews. *)
Definition left_a : TextEditor := mkEditor 0 "a.ts".
Definition view_b : TextEditor := mkEditor 2 "b.ts".

Definition split_session : State :=
  mkState (mkManager None false [])
          (mkWorkspace {[ "a.ts" := alphabet; "b.ts" := alphabet ]} ∅ ["a.ts"; "b.ts"]
                       (mkConfiguration (Some true) (Some true) None None None))
          (mkWindow [left_a; view_a; view_b] (Some view_a) 3 ∅ [])
          (mkUi [] [] [] false [])
          (mkConduct (fun _ => true) (fun _ => true) (fun _ => true) false) [].

Definition fix_b : Suggestion :=
  mkSuggestion view_b (mkRange 0 5) "other()" "Call the other routine".

(** ** The two interpreters agree *)

Section Interpreters.
Context {A : Type}.

Lemma run_bind {B : Type} (p : Async A) (f : A -> Async B) st :
  run (bind p f) st =
  match run p st with
  | (inl e, st') => (inl e, st')
  | (inr a, st') => run (f a) st'
  end.
Proof.
  revert st. induction p as [a|e|R act k IH|R act k IH]; intros st; cbn; try done.
  - destruct (act st) as [r st']. apply IH.
  - destruct (act st) as [r st']. apply IH.
Qed.

Lemma run_try_catch (p : Async A) (h : Exn -> Async A) st :
  run (try_catch p h) st =
  match run p st with
  | (inl e, st') => run (h e) st'
  | (inr a, st') => (inr a, st')
  end.
Proof.
  revert st. induction p as [a|e|R act k IH|R act k IH]; intros st; cbn; try done.
  - destruct (act st) as [r st']. apply IH.
  - destruct (act st) as [r st']. apply IH.
Qed.

(** Running a call to completion is giving it one slice and running what
    is left: an uninterrupted call is the sequence of its slices. *)
Lemma run_advance (p : Async A) st :
  run p st = run (fst (advance p st)) (snd (advance p st)).
Proof.
  revert st. induction p as [a|e|R act k IH|R act k IH]; intros st; cbn; try done.
  - destruct (act st) as [r st']. apply IH.
  - by destruct (act st) as [r st'].
Qed.

Lemma advance_finished (p : Async A) st :
  finished p = true -> advance p st = (p, st).
Proof. by destruct p. Qed.

End Interpreters.

Lemma run_slices {A : Type} n (p : Async A) st :
  run p st = run (fst (slices n p st)) (snd (slices n p st)).
Proof.
  revert p st. induction n as [|n IH]; intros p st; cbn; [done|].
  rewrite (run_advance p st). destruct (advance p st) as [p' st']. apply IH.
Qed.

(** ** Symbolic execution

    The proofs below run the programs on a state that is only partly known.
    A program is executed one node at a time by rewriting with the equations
    of [run] in an equation [E : res = run p st]; between two steps the
    record projections and the field updates are computed, and nothing else:
    decisions on unknown data stay folded until a hypothesis settles them. *)

Lemma run_Ret {A : Type} (a : A) st : run (Ret a) st = (inr a, st).
Proof. done. Qed.

Lemma run_Throw {A : Type} (e : Exn) st : run (@Throw A e) st = (inl e, st).
Proof. done. Qed.

Lemma run_Sync {A R : Type} (act : State -> R * State) (k : R -> Async A) st :
  run (Sync act k) st = run (k (act st).1) (act st).2.
Proof. cbn. by destruct (act st). Qed.

Lemma run_Await {A R : Type} (act : State -> R * State) (k : R -> Async A) st :
  run (Await act k) st = run (k (act st).1) (act st).2.
Proof. cbn. by destruct (act st). Qed.

Lemma advance_Sync {A R : Type} (act : State -> R * State) (k : R -> Async A) st :
  advance (Sync act k) st = advance (k (act st).1) (act st).2.
Proof. cbn. by destruct (act st). Qed.

Lemma advance_Await {A R : Type} (act : State -> R * State) (k : R -> Async A) st :
  advance (Await act k) st = (k (act st).1, (act st).2).
Proof. cbn. by destruct (act st). Qed.

Lemma bool_decide_elem_singleton (e : TextEditor) : bool_decide (e ∈ [e]) = true.
Proof. apply bool_decide_eq_true_2. set_solver. Qed.

Lemma bool_decide_elem_snoc (e : TextEditor) l : bool_decide (e ∈ l ++ [e]) = true.
Proof. apply bool_decide_eq_true_2. set_solver. Qed.

Lemma bool_decide_refl (x : string) : bool_decide (x = x) = true.
Proof. by apply bool_decide_eq_true_2. Qed.

Lemma anyEditorOf_nil uri : anyEditorOf uri [] = None.
Proof. done. Qed.

Lemma anyEditorOf_singleton n uri :
  anyEditorOf uri [mkEditor n uri] = Some (mkEditor n uri).
Proof. unfold anyEditorOf. cbn. by rewrite bool_decide_refl. Qed.

Tactic Notation "simp" "in" hyp(H) :=
  cbn [bind try_catch fst snd
       manager workspace window ui conduct journal
       currentSuggestion decorationTypeDisposed subscriptions
       documents disk textDocuments configuration
       visibleTextEditors activeTextEditor nextEditorId decorations diffViews
       notifications outputChannels console hasSuggestion timers
       acceptsEdit savesOk opensDiff enablePreview
       showInlineDecorations autoSave backendUrl customRules defaultFocus
       editor range newCode explanation editorId document message
       leftUri rightUri originalCode proposedCode
       on_manager on_workspace on_window on_ui record
       with_currentSuggestion with_decorationTypeDisposed with_subscriptions
       with_documents with_disk with_textDocuments
       with_editors with_nextEditorId with_decorations with_diffViews
       with_notifications with_outputChannels with_console with_hasSuggestion with_timers
       default from_option id negb andb truthy existsb String.append app]
    in H.

Tactic Notation "simp" :=
  cbn [bind try_catch fst snd
       manager workspace window ui conduct journal
       currentSuggestion decorationTypeDisposed subscriptions
       documents disk textDocuments configuration
       visibleTextEditors activeTextEditor nextEditorId decorations diffViews
       notifications outputChannels console hasSuggestion timers
       acceptsEdit savesOk opensDiff enablePreview
       showInlineDecorations autoSave backendUrl customRules defaultFocus
       editor range newCode explanation editorId document message
       leftUri rightUri originalCode proposedCode
       on_manager on_workspace on_window on_ui record
       with_currentSuggestion with_decorationTypeDisposed with_subscriptions
       with_documents with_disk with_textDocuments
       with_editors with_nextEditorId with_decorations with_diffViews
       with_notifications with_outputChannels with_console with_hasSuggestion with_timers
       default from_option id negb andb truthy existsb String.append app].

(** The methods of the class and the synchronous primitives, unfolded. *)
Ltac unfold_program E :=
  unfold acceptSuggestion, rejectSuggestion, Alt.acceptSuggestion, Alt.rejectSuggestion,
         showSuggestion, showDiff, dispose, cleanup, clearDecorations, timerCallback,
         try_finally, await_call,
         getCurrentSuggestion, setCurrentSuggestion, getActiveTextEditor,
         getVisibleTextEditors, getTextDocuments, getConfiguration,
         setDecorations, setContext, showInformationMessage, showWarningMessage,
         showErrorMessage, console_log, documentText, registerProvider,
         showInOutputChannel, setTimeout, disposeDecorationType,
         await, sync in E;
  simp in E.

(** One node of the program in [E]; [facts] settles the answers of the host. *)
Ltac step E facts :=
  first [rewrite run_Sync in E | rewrite run_Await in E
        | rewrite advance_Sync in E | rewrite advance_Await in E];
  unfold openTextDocument, showTextDocument, edit, save, vscode_diff, closeAllEditors, sleep in E;
  simp in E; facts E;
  rewrite ?bool_decide_elem_singleton, ?bool_decide_elem_snoc, ?bool_decide_refl,
          ?anyEditorOf_nil, ?anyEditorOf_singleton in E;
  simp in E.

(** Every equation of the context is used to settle what the host answers. *)
Ltac use_facts E :=
  repeat match goal with
         | H : _ = _ |- _ =>
             lazymatch H with E => fail | _ => idtac end;
             progress (rewrite H in E)
         end;
  rewrite ?lookup_insert_eq in E.

Ltac use_facts_goal :=
  repeat match goal with
         | H : _ = _ |- _ => progress (rewrite H)
         end;
  rewrite ?lookup_insert_eq.

(** A decision of the program in [E] that no fact settles is split in two. *)
Ltac settle E :=
  let split x := (let Hq := fresh "Hq" in destruct x eqn:Hq; rewrite ?Hq in E) in
  let split_flag x := (let Hq := fresh "Hq" in destruct x as [[]|] eqn:Hq; rewrite ?Hq in E) in
  lazymatch type of E with
  | context [match ?s with mkSuggestion _ _ _ _ => _ end] =>
      is_var s; destruct s; cbn [editor range newCode explanation] in *
  | context [match currentSuggestion (manager ?st) with _ => _ end] =>
      split (currentSuggestion (manager st))
  | context [match documents (workspace ?st) !! ?u with _ => _ end] =>
      split (documents (workspace st) !! u)
  | context [if opensDiff ?c ?u then _ else _] => split (opensDiff c u)
  | context [if acceptsEdit ?c ?u then _ else _] => split (acceptsEdit c u)
  | context [if savesOk ?c ?u then _ else _] => split (savesOk c u)
  | context [truthy (?f ?c)] => split_flag (f c)
  | context [default true (?f ?c)] => split_flag (f c)
  end.

(** [execute E] follows the one path that the facts select; [explore E]
    follows every path. *)
Ltac execute E :=
  unfold_program E;
  repeat (step E use_facts);
  rewrite ?run_Ret, ?run_Throw in E.

Ltac explore E :=
  unfold_program E;
  repeat first [step E use_facts | settle E; simp in E];
  rewrite ?run_Ret, ?run_Throw in E.

Lemma anyEditorOf_Some uri l e :
  anyEditorOf uri l = Some e -> bool_decide (e ∈ l) = true /\ document e = uri.
Proof.
  unfold anyEditorOf. intros H. apply List.find_some in H as [Hin Hd]. split.
  - apply bool_decide_eq_true_2. by apply list_elem_of_In.
  - by apply bool_decide_eq_true_1 in Hd.
Qed.

(** The second copy of [acceptSuggestion] decides on the editors and the
    documents that are open. *)
Ltac settle_views E :=
  let split x := (let Hq := fresh "Hq" in destruct x eqn:Hq; rewrite ?Hq in E) in
  lazymatch type of E with
  | context [match activeTextEditor (window ?st) with _ => _ end] =>
      split (activeTextEditor (window st))
  | context [existsb ?f (textDocuments ?w)] => split (existsb f (textDocuments w))
  | context [if bool_decide (document ?a = document ?e) then _ else _] =>
      split (bool_decide (document a = document e))
  | context [if bool_decide (?e ∈ visibleTextEditors ?w) then _ else _] =>
      split (bool_decide (e ∈ visibleTextEditors w))
  | context [if bool_decide (?e ∈ visibleTextEditors ?w ++ ?l) then _ else _] =>
      split (bool_decide (e ∈ visibleTextEditors w ++ l))
  | context [match anyEditorOf ?u (visibleTextEditors ?w) with _ => _ end] =>
      let Hq := fresh "Hq" in
      let found := fresh "found" in
      destruct (anyEditorOf u (visibleTextEditors w)) as [found|] eqn:Hq;
      rewrite ?Hq in E;
      [ let Hin := fresh "Hin" in
        let Hd := fresh "Hd" in
        destruct (anyEditorOf_Some _ _ _ Hq) as [Hin Hd];
        let fid := fresh "fid" in
        let fdoc := fresh "fdoc" in
        destruct found as [fid fdoc]; cbn [document] in Hd; subst fdoc
      | ]
  end.

Ltac explore_views E :=
  unfold_program E;
  repeat first [step E use_facts | settle E; simp in E | settle_views E; simp in E];
  rewrite ?run_Ret, ?run_Throw in E.

(** The journal is built by appending one call at a time. *)
Ltac journal_norm :=
  unfold editCalls, appliedEdits, saveCalls;
  rewrite <- ?List.app_assoc;
  rewrite ?List.filter_app;
  cbn [List.filter isEdit isAppliedEdit isSave app];
  rewrite ?List.app_nil_r.

(** The result is put back in the goal, which is then a statement on the
    fields of the initial state. *)
Ltac conclude res :=
  subst res; simp; use_facts_goal; journal_norm.

(** ** Presenting a suggestion *)

(** C1 (as amended): after [showSuggestion] returns, the one pending
    suggestion is the new one and the context key is set.  Before the new
    suggestion is recorded the decoration is cleared on the editor stored
    with the superseded suggestion; the call then issues one [vscode.diff]
    and closes nothing: a diff tab of the superseded suggestion is left to
    the host. *)
Theorem showSuggestion_supersedes st e r c x :
  let st' := after (showSuggestion e r c x) st in
  let left := "ai-original:" +:+ document e in
  let right := "ai-suggestion:" +:+ document e in
  completes (showSuggestion e r c x) st /\
  currentSuggestion (manager st') = Some (mkSuggestion e r c x) /\
  hasPendingSuggestion st' = true /\
  match currentSuggestion (manager st) with
  | Some old =>
      decorations (window st') !! editorId (editor old) = Some [] /\
      journal st' = journal st ++
        [SetDecorations (editorId (editor old)) []; SetContext true;
         Diff left right (opensDiff (conduct st) left)]
  | None =>
      journal st' = journal st ++
        [SetContext true; Diff left right (opensDiff (conduct st) left)]
  end.
Proof.
  intros st' left right. subst st' left right.
  unfold after, completes, hasPendingSuggestion.
  remember (run (showSuggestion e r c x) st) as res eqn:E.
  explore E; conclude res; split_and!; try reflexivity; by exists tt.
Qed.

(** C1, counterexample.  The window shows [a.ts] in two views.  A suggestion
    is presented on the second one; the timer highlights the first view that
    shows the document; a suggestion on [b.ts] is presented next.  With the
    second suggestion pending, the range of the first is still highlighted in
    the left view and its diff tab is still open. *)
Lemma superseded_artifacts_leak :
  let st1 := after (showSuggestion (editor fix_a) (range fix_a) (newCode fix_a)
                                   (explanation fix_a)) split_session in
  let st2 := userFocuses view_b (fireTimer st1) in
  let st3 := after (showSuggestion (editor fix_b) (range fix_b) (newCode fix_b)
                                   (explanation fix_b)) st2 in
  currentSuggestion (manager st3) = Some fix_b /\
  decorations (window st3) !! editorId left_a = Some [range fix_a] /\
  diffViews (window st3) =
    [mkDiff "ai-original:a.ts" "ai-suggestion:a.ts" "abcdefghijklmno" "fixed()";
     mkDiff "ai-original:b.ts" "ai-suggestion:b.ts" "01234" "other()"].
Proof. vm_compute. split_and!; reflexivity. Qed.

(** ** Accepting a suggestion *)

(** What [acceptSuggestion] does when the host resolves the document and
    applies the edit: every field the call touches, and the calls it makes
    in their order. *)
Lemma accept_applies st s text :
  currentSuggestion (manager st) = Some s ->
  documents (workspace st) !! document (editor s) = Some text ->
  acceptsEdit (conduct st) (document (editor s)) = true ->
  let uri := document (editor s) in
  let st' := after acceptSuggestion st in
  let reopened := mkEditor (nextEditorId (window st)) uri in
  let text' := replaceRange (range s) (newCode s) text in
  let saving := default true (autoSave (configuration (workspace st))) in
  (fst (run acceptSuggestion st) = inr tt /\
   manager st' = with_currentSuggestion None (manager st) /\
   hasSuggestion (ui st') = false /\
   notifications (ui st') =
     notifications (ui st) ++ [Information "✓ AI suggestion accepted and applied!" []]) /\
  (documents (workspace st') = <[uri := text']> (documents (workspace st)) /\
   disk (workspace st') =
     (if saving && savesOk (conduct st) uri
      then <[uri := text']> (disk (workspace st)) else disk (workspace st))) /\
  (visibleTextEditors (window st') = [reopened] /\
   activeTextEditor (window st') = Some reopened /\
   diffViews (window st') = []) /\
  journal st' = journal st ++
     [CloseAllEditors; OpenTextDocument uri true;
      ShowTextDocument uri (Some (editorId reopened));
      Edit reopened (range s) (newCode s) (Some true)] ++
     (if saving then [Save uri (savesOk (conduct st) uri)] else []) ++
     [SetDecorations (editorId (editor s)) []; SetContext false].
Proof.
  intros Hs Hd Ha uri st' reopened text' saving.
  subst uri st' reopened text' saving. unfold after.
  remember (run acceptSuggestion st) as res eqn:E.
  destruct s as [ed r c x]. cbn [editor document range newCode] in *.
  explore E; conclude res; done.
Qed.

(** On the first copy of the class, a pending suggestion whose editor is no
    longer among the visible ones is still accepted.  The call resolves the
    document by its URI,
    shows it in a new editor and applies through that editor the edit that
    was presented: the text of the document becomes the old text with the
    range replaced by the new code, and no other edit is made. *)
Theorem accept_reopens_closed_surface st s text :
  currentSuggestion (manager st) = Some s ->
  editor s ∉ visibleTextEditors (window st) ->
  documents (workspace st) !! document (editor s) = Some text ->
  acceptsEdit (conduct st) (document (editor s)) = true ->
  let uri := document (editor s) in
  let st' := after acceptSuggestion st in
  let reopened := mkEditor (nextEditorId (window st)) uri in
  completes acceptSuggestion st /\
  accepted st st' /\
  documents (workspace st') =
    <[uri := replaceRange (range s) (newCode s) text]> (documents (workspace st)) /\
  visibleTextEditors (window st') = [reopened] /\
  editCalls (journal st') =
    editCalls (journal st) ++ [Edit reopened (range s) (newCode s) (Some true)] /\
  exists rest, journal st' = journal st ++
    [CloseAllEditors; OpenTextDocument uri true;
     ShowTextDocument uri (Some (editorId reopened));
     Edit reopened (range s) (newCode s) (Some true)] ++ rest.
Proof.
  intros Hs _ Hd Ha uri st' reopened. subst uri st' reopened.
  pose proof (accept_applies st s text Hs Hd Ha) as H. cbv zeta in H.
  destruct H as ((Hrun & _ & _ & Hnote) & (Hdoc & _) & (Hvis & _) & Hj).
  split_and!; try done.
  - by exists tt.
  - rewrite Hj. journal_norm.
    by destruct (default true (autoSave (configuration (workspace st)))).
  - eexists. exact Hj.
Qed.

Lemma accept_reopens_closed_surface_witness :
  (currentSuggestion (manager presented) = Some fix_a /\
   (editor fix_a ∉ visibleTextEditors (window presented)) /\
   documents (workspace presented) !! document (editor fix_a) = Some alphabet /\
   acceptsEdit (conduct presented) (document (editor fix_a)) = true) /\
  documents (workspace (after acceptSuggestion presented)) !! "a.ts"
  = Some "0123456789fixed()pqrstuvwxyz".
Proof.
  assert (Hs : currentSuggestion (manager presented) = Some fix_a)
    by (vm_compute; reflexivity).
  assert (Hc : editor fix_a ∉ visibleTextEditors (window presented))
    by (vm_compute; apply not_elem_of_nil).
  assert (Hd : documents (workspace presented) !! document (editor fix_a) = Some alphabet)
    by (vm_compute; reflexivity).
  assert (Ha : acceptsEdit (conduct presented) (document (editor fix_a)) = true)
    by (vm_compute; reflexivity).
  split; [done|].
  destruct (accept_reopens_closed_surface presented fix_a alphabet Hs Hc Hd Ha)
    as (_ & _ & Hdoc & _).
  rewrite Hdoc. rewrite lookup_insert_eq. vm_compute. reflexivity.
Defined.

(** C8 (as amended): in a successful accept the document is saved, after the
    edit, exactly when [autoSave] is on or has no value ([true] is the
    default).  What [save] answers is discarded: whether or not the file was
    saved the call ends with the success notification and nothing else is
    shown, and the edit stays applied. *)
Theorem accept_saves_when_configured st s text :
  currentSuggestion (manager st) = Some s ->
  documents (workspace st) !! document (editor s) = Some text ->
  acceptsEdit (conduct st) (document (editor s)) = true ->
  let uri := document (editor s) in
  let st' := after acceptSuggestion st in
  let reopened := mkEditor (nextEditorId (window st)) uri in
  let text' := replaceRange (range s) (newCode s) text in
  let saving := default true (autoSave (configuration (workspace st))) in
  saveCalls (journal st') =
    saveCalls (journal st) ++ (if saving then [Save uri (savesOk (conduct st) uri)] else []) /\
  (exists before, journal st' = journal st ++
     before ++ [Edit reopened (range s) (newCode s) (Some true)] ++
     (if saving then [Save uri (savesOk (conduct st) uri)] else []) ++
     [SetDecorations (editorId (editor s)) []; SetContext false]) /\
  accepted st st' /\
  documents (workspace st') = <[uri := text']> (documents (workspace st)) /\
  disk (workspace st') =
    (if saving && savesOk (conduct st) uri
     then <[uri := text']> (disk (workspace st)) else disk (workspace st)).
Proof.
  intros Hs Hd Ha uri st' reopened text' saving.
  subst uri st' reopened text' saving.
  pose proof (accept_applies st s text Hs Hd Ha) as H. cbv zeta in H.
  destruct H as ((_ & _ & _ & Hnote) & (Hdoc & Hdisk) & _ & Hj).
  split_and!; try done.
  - rewrite Hj. journal_norm.
    by destruct (default true (autoSave (configuration (workspace st)))).
  - eexists [_; _; _]. exact Hj.
Qed.

Lemma accept_saves_when_configured_witness :
  (currentSuggestion (manager presented) = Some fix_a /\
   documents (workspace presented) !! document (editor fix_a) = Some alphabet /\
   acceptsEdit (conduct presented) (document (editor fix_a)) = true) /\
  saveCalls (journal (after acceptSuggestion presented)) = [Save "a.ts" true] /\
  disk (workspace (after acceptSuggestion presented)) !! "a.ts"
  = Some "0123456789fixed()pqrstuvwxyz".
Proof.
  assert (Hs : currentSuggestion (manager presented) = Some fix_a)
    by (vm_compute; reflexivity).
  assert (Hd : documents (workspace presented) !! document (editor fix_a) = Some alphabet)
    by (vm_compute; reflexivity).
  assert (Ha : acceptsEdit (conduct presented) (document (editor fix_a)) = true)
    by (vm_compute; reflexivity).
  split; [done|].
  destruct (accept_saves_when_configured presented fix_a alphabet Hs Hd Ha)
    as (Hsave & _ & _ & _ & Hdisk).
  rewrite Hsave, Hdisk. split; vm_compute; reflexivity.
Defined.

(** C8, counterexample.  The host fails to save.  The accept ends with the
    success notification: the failure is reported nowhere, on no channel. *)
Lemma failed_save_is_not_reported :
  let st := with_conduct refusing_save presented in
  let st' := after acceptSuggestion st in
  saveCalls (journal st') = [Save "a.ts" false] /\
  notifications (ui st') =
    notifications (ui st) ++ [Information "✓ AI suggestion accepted and applied!" []] /\
  console (ui st') = console (ui st) /\
  outputChannels (ui st') = outputChannels (ui st) /\
  disk (workspace st') !! "a.ts" = None /\
  documents (workspace st') !! "a.ts" = Some "0123456789fixed()pqrstuvwxyz".
Proof. vm_compute. split_and!; reflexivity. Qed.

(** C9: a successful accept closes every editor before it reopens the
    document.  [closeAllEditors] is the first call, the reopened editor is
    the only one left, no view of another document and no diff tab
    survives. *)
Theorem accept_closes_every_editor st s text :
  currentSuggestion (manager st) = Some s ->
  documents (workspace st) !! document (editor s) = Some text ->
  acceptsEdit (conduct st) (document (editor s)) = true ->
  let uri := document (editor s) in
  let st' := after acceptSuggestion st in
  let reopened := mkEditor (nextEditorId (window st)) uri in
  accepted st st' /\
  (exists rest, journal st' = journal st ++
     CloseAllEditors :: OpenTextDocument uri true ::
     ShowTextDocument uri (Some (editorId reopened)) :: rest) /\
  visibleTextEditors (window st') = [reopened] /\
  List.filter (fun e => negb (bool_decide (document e = uri)))
              (visibleTextEditors (window st')) = [] /\
  diffViews (window st') = [].
Proof.
  intros Hs Hd Ha uri st' reopened. subst uri st' reopened.
  pose proof (accept_applies st s text Hs Hd Ha) as H. cbv zeta in H.
  destruct H as ((_ & _ & _ & Hnote) & _ & (Hvis & _ & Hdiff) & Hj).
  split_and!; try done.
  - eexists. exact Hj.
  - rewrite Hvis. cbn [List.filter document].
    by rewrite bool_decide_refl.
Qed.

Lemma accept_closes_every_editor_witness :
  let st := after (showSuggestion (editor fix_a) (range fix_a) (newCode fix_a)
                                  (explanation fix_a)) split_session in
  (currentSuggestion (manager st) = Some fix_a /\
   documents (workspace st) !! document (editor fix_a) = Some alphabet /\
   acceptsEdit (conduct st) (document (editor fix_a)) = true) /\
  visibleTextEditors (window st) = [left_a; view_b] /\
  visibleTextEditors (window (after acceptSuggestion st)) = [mkEditor 3 "a.ts"].
Proof.
  intros st.
  assert (Hs : currentSuggestion (manager st) = Some fix_a)
    by (vm_compute; reflexivity).
  assert (Hd : documents (workspace st) !! document (editor fix_a) = Some alphabet)
    by (vm_compute; reflexivity).
  assert (Ha : acceptsEdit (conduct st) (document (editor fix_a)) = true)
    by (vm_compute; reflexivity).
  split; [done|]. split; [vm_compute; reflexivity|].
  destruct (accept_closes_every_editor st fix_a alphabet Hs Hd Ha)
    as (_ & _ & Hvis & _).
  rewrite Hvis. vm_compute. reflexivity.
Defined.

(** What [acceptSuggestion] does when nothing is pending: a warning, and
    nothing else.  Both copies of the class agree. *)
Lemma accept_nothing_pending st :
  currentSuggestion (manager st) = None ->
  let warned :=
    on_ui (fun u => with_notifications
                      (notifications u ++ [Warning "No suggestion to accept"]) u) st in
  run acceptSuggestion st = (inr tt, warned) /\
  run Alt.acceptSuggestion st = (inr tt, warned).
Proof.
  intros Hs warned. subst warned. split.
  - remember (run acceptSuggestion st) as res eqn:E. by execute E.
  - remember (run Alt.acceptSuggestion st) as res eqn:E. by execute E.
Qed.

(** The first slice of [acceptSuggestion] on a pending suggestion: the guard
    is passed and [closeAllEditors] is issued; the suggestion stays pending. *)
Lemma accept_first_slice st s :
  currentSuggestion (manager st) = Some s ->
  let st1 := snd (advance acceptSuggestion st) in
  journal st1 = journal st ++ [CloseAllEditors] /\
  manager st1 = manager st /\
  finished (fst (advance acceptSuggestion st)) = false.
Proof.
  intros Hs st1. subst st1.
  remember (advance acceptSuggestion st) as res eqn:E.
  destruct s as [ed r c x].
  unfold_program E. step E use_facts. step E use_facts.
  by subst res.
Qed.

(** C3, on the second copy of the class.  The editor of the suggestion still
    has the focus and the host refuses the edit.  What [edit] answers is not
    looked at: the call goes on to save the document when [autoSave] is on,
    shows the success notification and discards the suggestion; no error is
    raised.  The text is what it was, since the host did not apply the edit. *)
Theorem second_copy_ignores_refused_edit st s text :
  currentSuggestion (manager st) = Some s ->
  activeTextEditor (window st) = Some (editor s) ->
  editor s ∈ visibleTextEditors (window st) ->
  document (editor s) ∈ textDocuments (workspace st) ->
  documents (workspace st) !! document (editor s) = Some text ->
  acceptsEdit (conduct st) (document (editor s)) = false ->
  let uri := document (editor s) in
  let st' := after Alt.acceptSuggestion st in
  completes Alt.acceptSuggestion st /\
  journal st' = journal st ++
    [Edit (editor s) (range s) (newCode s) (Some false)] ++
    (if truthy (autoSave (configuration (workspace st)))
     then [Save uri (savesOk (conduct st) uri)] else []) ++
    [SetDecorations (editorId (editor s)) []; SetContext false] /\
  notifications (ui st') =
    notifications (ui st) ++ [Information "✓ AI suggestion accepted!" []] /\
  currentSuggestion (manager st') = None /\
  documents (workspace st') = documents (workspace st).
Proof.
  intros Hs Hact Hvis Hopen Hd Ha uri st'. subst uri st'. unfold after, completes.
  destruct s as [ed r c x]. cbn [editor document range newCode] in *.
  assert (Hin : bool_decide (ed ∈ visibleTextEditors (window st)) = true)
    by (by apply bool_decide_eq_true_2).
  assert (Hex : existsb (fun doc => bool_decide (doc = document ed))
                        (textDocuments (workspace st)) = true).
  { apply existsb_exists. exists (document ed). split.
    - by apply list_elem_of_In.
    - apply bool_decide_refl. }
  clear Hvis Hopen.
  remember (run Alt.acceptSuggestion st) as res eqn:E.
  explore E; conclude res; split_and!; try reflexivity; by exists tt.
Qed.

Lemma second_copy_ignores_refused_edit_witness :
  (currentSuggestion (manager presented_in_place) = Some fix_a /\
   activeTextEditor (window presented_in_place) = Some (editor fix_a) /\
   (editor fix_a ∈ visibleTextEditors (window presented_in_place)) /\
   (document (editor fix_a) ∈ textDocuments (workspace presented_in_place)) /\
   documents (workspace presented_in_place) !! document (editor fix_a) = Some alphabet /\
   acceptsEdit (conduct presented_in_place) (document (editor fix_a)) = false) /\
  notifications (ui (after Alt.acceptSuggestion presented_in_place)) =
    notifications (ui presented_in_place) ++ [Information "✓ AI suggestion accepted!" []] /\
  saveCalls (journal (after Alt.acceptSuggestion presented_in_place)) = [Save "a.ts" true] /\
  documents (workspace (after Alt.acceptSuggestion presented_in_place)) !! "a.ts"
  = Some alphabet.
Proof.
  assert (Hs : currentSuggestion (manager presented_in_place) = Some fix_a)
    by (vm_compute; reflexivity).
  assert (Hact : activeTextEditor (window presented_in_place) = Some (editor fix_a))
    by (vm_compute; reflexivity).
  assert (Hvis : editor fix_a ∈ visibleTextEditors (window presented_in_place))
    by (vm_compute; apply list_elem_of_here).
  assert (Hopen : document (editor fix_a) ∈ textDocuments (workspace presented_in_place))
    by (vm_compute; apply list_elem_of_here).
  assert (Hd : documents (workspace presented_in_place) !! document (editor fix_a)
               = Some alphabet)
    by (vm_compute; reflexivity).
  assert (Ha : acceptsEdit (conduct presented_in_place) (document (editor fix_a)) = false)
    by (vm_compute; reflexivity).
  split; [done|].
  destruct (second_copy_ignores_refused_edit presented_in_place fix_a alphabet
              Hs Hact Hvis Hopen Hd Ha) as (_ & Hj & Hn & _ & Hdoc).
  rewrite Hj, Hn, Hdoc. split_and!; vm_compute; reflexivity.
Defined.

(** ** The manager after a call *)

(** C4 (as amended): [rejectSuggestion] always leaves the manager idle.
    [acceptSuggestion] leaves it idle when it ended with the success
    notification or found nothing pending; an accept that failed ends with
    an error notification and leaves the suggestion pending and the context
    key as it was.  This holds for both copies of the class. *)
Theorem settled_or_still_pending st :
  flagConsistent st ->
  idle (after rejectSuggestion st) /\
  idle (after Alt.rejectSuggestion st) /\
  settled "✓ AI suggestion accepted and applied!" st (after acceptSuggestion st) /\
  settled "✓ AI suggestion accepted!" st (after Alt.acceptSuggestion st).
Proof.
  intros Hflag.
  split_and!; unfold flagConsistent, settled, idle, hasPendingSuggestion, after in *.
  - remember (run rejectSuggestion st) as res eqn:E.
    explore E; conclude res; auto.
  - remember (run Alt.rejectSuggestion st) as res eqn:E.
    explore E; conclude res; auto.
  - remember (run acceptSuggestion st) as res eqn:E.
    explore E; conclude res.
    all: try (left; split; [auto | by (left + right)]).
    all: right; split_and!; [by eexists | done | done].
  - remember (run Alt.acceptSuggestion st) as res eqn:E.
    explore_views E; conclude res.
    all: try (left; split; [auto | by (left + right)]).
    all: right; split_and!; [by eexists | done | done].
Qed.

Lemma settled_or_still_pending_witness :
  flagConsistent presented /\
  idle (after rejectSuggestion presented) /\
  settled "✓ AI suggestion accepted and applied!" presented (after acceptSuggestion presented).
Proof.
  assert (Hflag : flagConsistent presented) by (intros H; vm_compute in H; discriminate H).
  split; [exact Hflag|].
  destruct (settled_or_still_pending presented Hflag) as (Hr & _ & Ha & _).
  split; [exact Hr | exact Ha].
Defined.

(** C4, counterexample.  The host refuses the edit: the accept ends with an
    error notification, and the suggestion is still pending with the context
    key still set. *)
Lemma failed_accept_stays_pending :
  let st := with_conduct refusing_edit presented in
  let st' := after acceptSuggestion st in
  notifications (ui st') =
    notifications (ui st) ++ [ErrorMessage "Error applying suggestion: Failed to apply edit"] /\
  currentSuggestion (manager st') = Some fix_a /\
  hasPendingSuggestion st' = true.
Proof. vm_compute. split_and!; reflexivity. Qed.

(** ** Calls that overlap *)

Lemma slices_S {A : Type} n (p : Async A) st :
  slices (S n) p st = slices n (advance p st).1 (advance p st).2.
Proof. cbn. by destruct (advance p st). Qed.

(** C5 (as amended): the class has no state for a call in progress.  A second
    [acceptSuggestion] is ignored, with a warning and without any host call,
    when it is made after a first one has completed successfully: the edit
    is then applied once.  While the first call is suspended at one of its
    awaited calls up to the edit, it is not finished and the suggestion is
    still pending: a call made then passes the guard and issues
    [closeAllEditors] like the first. *)
Theorem second_accept_ignored_only_after_first st s text n :
  currentSuggestion (manager st) = Some s ->
  documents (workspace st) !! document (editor s) = Some text ->
  acceptsEdit (conduct st) (document (editor s)) = true ->
  n <= 5 ->
  let reopened := mkEditor (nextEditorId (window st)) (document (editor s)) in
  let st1 := after acceptSuggestion st in
  let st2 := after acceptSuggestion st1 in
  let mid := slices n acceptSuggestion st in
  (appliedEdits (journal st2) =
     appliedEdits (journal st) ++ [Edit reopened (range s) (newCode s) (Some true)] /\
   journal st2 = journal st1 /\
   workspace st2 = workspace st1 /\
   notifications (ui st2) = notifications (ui st1) ++ [Warning "No suggestion to accept"]) /\
  (finished (fst mid) = false /\
   currentSuggestion (manager (snd mid)) = Some s /\
   journal (snd (advance acceptSuggestion (snd mid))) = journal (snd mid) ++ [CloseAllEditors]).
Proof.
  intros Hs Hd Ha Hn reopened st1 st2 mid. subst reopened st1 st2 mid. split.
  - pose proof (accept_applies st s text Hs Hd Ha) as H. cbv zeta in H.
    destruct H as ((_ & Hm & _) & _ & _ & Hj).
    assert (Hnone : currentSuggestion (manager (after acceptSuggestion st)) = None)
      by (by rewrite Hm).
    destruct (accept_nothing_pending _ Hnone) as [Hrun _].
    assert (Hst2 : after acceptSuggestion (after acceptSuggestion st) =
                   on_ui (fun u => with_notifications
                            (notifications u ++ [Warning "No suggestion to accept"]) u)
                         (after acceptSuggestion st))
      by (unfold after at 1; by rewrite Hrun).
    rewrite Hst2. simp.
    split_and!; try reflexivity.
    rewrite Hj. journal_norm.
    by destruct (default true (autoSave (configuration (workspace st)))).
  - assert (Hmid : finished (fst (slices n acceptSuggestion st)) = false /\
                   currentSuggestion (manager (snd (slices n acceptSuggestion st))) = Some s).
    { remember (slices n acceptSuggestion st) as res eqn:E.
      destruct s as [ed r c x]. cbn [editor document range newCode] in *.
      unfold_program E.
      destruct n as [|[|[|[|[|[|n]]]]]]; [..|lia];
        repeat (rewrite slices_S in E; repeat (step E use_facts));
        cbn [slices] in E; by subst res. }
    destruct Hmid as [Hfin Hcur]. split_and!; [done | done |].
    by destruct (accept_first_slice _ s Hcur) as (Hj & _).
Qed.

Lemma second_accept_ignored_only_after_first_witness :
  (currentSuggestion (manager presented) = Some fix_a /\
   documents (workspace presented) !! document (editor fix_a) = Some alphabet /\
   acceptsEdit (conduct presented) (document (editor fix_a)) = true /\
   3 <= 5) /\
  appliedEdits (journal (after acceptSuggestion (after acceptSuggestion presented))) =
    [Edit (mkEditor 2 "a.ts") (mkRange 10 25) "fixed()" (Some true)] /\
  currentSuggestion (manager (snd (slices 3 acceptSuggestion presented))) = Some fix_a.
Proof.
  assert (Hs : currentSuggestion (manager presented) = Some fix_a)
    by (vm_compute; reflexivity).
  assert (Hd : documents (workspace presented) !! document (editor fix_a) = Some alphabet)
    by (vm_compute; reflexivity).
  assert (Ha : acceptsEdit (conduct presented) (document (editor fix_a)) = true)
    by (vm_compute; reflexivity).
  assert (Hn : 3 <= 5) by lia.
  split; [done|].
  destruct (second_accept_ignored_only_after_first presented fix_a alphabet 3 Hs Hd Ha Hn)
    as ((Hedits & _) & (_ & Hcur & _)).
  split; [|exact Hcur].
  rewrite Hedits. vm_compute. reflexivity.
Defined.

(** C5, counterexample.  A second call is made while the first is suspended
    at its first awaited call; the first call then runs to its end, and the
    second after it.  The second call is not ignored: the edit is applied
    twice, and the second time to text that the range no longer fits. *)
Lemma reentrant_accept_applies_twice :
  let st := snd (interleave reentrant [acceptSuggestion; acceptSuggestion] presented) in
  List.map finished (fst (interleave reentrant [acceptSuggestion; acceptSuggestion] presented))
    = [true; true] /\
  appliedEdits (journal st) =
    [Edit (mkEditor 2 "a.ts") (mkRange 10 25) "fixed()" (Some true);
     Edit (mkEditor 2 "a.ts") (mkRange 10 25) "fixed()" (Some true)] /\
  documents (workspace st) !! "a.ts" = Some "0123456789fixed()xyz" /\
  notifications (ui st) =
    notifications (ui presented) ++
    [Information "✓ AI suggestion accepted and applied!" [];
     Information "✓ AI suggestion accepted and applied!" []].
Proof. vm_compute. split_and!; reflexivity. Qed.

(** ** Rejecting a suggestion *)

(** C6: [rejectSuggestion] never changes the text of a document.  Whatever
    the state, in both copies of the class, the documents and what is saved
    of them are what they were, and no edit is among the calls made. *)
Theorem reject_never_edits st :
  let st' := after rejectSuggestion st in
  let st'' := after Alt.rejectSuggestion st in
  (documents (workspace st') = documents (workspace st) /\
   disk (workspace st') = disk (workspace st) /\
   editCalls (journal st') = editCalls (journal st) /\
   saveCalls (journal st') = saveCalls (journal st)) /\
  (documents (workspace st'') = documents (workspace st) /\
   disk (workspace st'') = disk (workspace st) /\
   journal st'' = journal st ++
     match currentSuggestion (manager st) with
     | Some s => [SetDecorations (editorId (editor s)) []; SetContext false]
     | None => []
     end).
Proof.
  intros st' st''. subst st' st''. unfold after. split.
  - remember (run rejectSuggestion st) as res eqn:E.
    explore E; conclude res; done.
  - remember (run Alt.rejectSuggestion st) as res eqn:E.
    explore E; conclude res; done.
Qed.

(** C7 (as amended): with nothing pending, [acceptSuggestion] shows the
    warning 'No suggestion to accept' and does nothing else, and
    [rejectSuggestion] returns at once: the state is what it was, and no
    warning is shown.  Both copies of the class agree. *)
Theorem idle_accept_warns_idle_reject_is_silent st :
  currentSuggestion (manager st) = None ->
  let st' := after acceptSuggestion st in
  (notifications (ui st') = notifications (ui st) ++ [Warning "No suggestion to accept"] /\
   workspace st' = workspace st /\
   window st' = window st /\
   journal st' = journal st /\
   after Alt.acceptSuggestion st = st') /\
  (after rejectSuggestion st = st /\
   after Alt.rejectSuggestion st = st).
Proof.
  intros Hs st'. subst st'.
  destruct (accept_nothing_pending st Hs) as [Hrun Halt].
  unfold after. rewrite Hrun, Halt. split; [done|].
  split.
  - remember (run rejectSuggestion st) as res eqn:E. execute E. by subst res.
  - remember (run Alt.rejectSuggestion st) as res eqn:E. execute E. by subst res.
Qed.

Lemma idle_accept_warns_idle_reject_is_silent_witness :
  currentSuggestion (manager fresh_session) = None /\
  notifications (ui (after acceptSuggestion fresh_session)) = [Warning "No suggestion to accept"] /\
  after rejectSuggestion fresh_session = fresh_session.
Proof.
  assert (Hs : currentSuggestion (manager fresh_session) = None) by reflexivity.
  split; [exact Hs|].
  destruct (idle_accept_warns_idle_reject_is_silent fresh_session Hs)
    as ((Hn & _) & (Hr & _)).
  split; [exact Hn | exact Hr].
Defined.

(** C7, counterexample.  Nothing is pending and [rejectSuggestion] is
    called: no notification of any kind is shown. *)
Lemma idle_reject_shows_no_warning :
  currentSuggestion (manager fresh_session) = None /\
  notifications (ui (after rejectSuggestion fresh_session)) = [] /\
  console (ui (after rejectSuggestion fresh_session)) = [].
Proof. vm_compute. split_and!; reflexivity. Qed.

(** ** Disposal *)

(** C10: [dispose] clears the decoration on the editor of the pending
    suggestion and releases the decoration type, and that is all: the
    pending suggestion, the context key, the registrations, the workspace,
    the editors and the diff tabs, and what the user was shown are what they
    were. *)
Theorem dispose_keeps_pending_suggestion st :
  let st' := after dispose st in
  (currentSuggestion (manager st') = currentSuggestion (manager st) /\
   hasPendingSuggestion st' = hasPendingSuggestion st) /\
  (decorationTypeDisposed (manager st') = true /\
   decorations (window st') = ∅ /\
   journal st' = journal st ++
     match currentSuggestion (manager st) with
     | Some s => [SetDecorations (editorId (editor s)) []; DisposeDecorationType]
     | None => [DisposeDecorationType]
     end) /\
  (subscriptions (manager st') = subscriptions (manager st) /\
   workspace st' = workspace st /\
   ui st' = ui st /\
   conduct st' = conduct st /\
   visibleTextEditors (window st') = visibleTextEditors (window st) /\
   activeTextEditor (window st') = activeTextEditor (window st) /\
   nextEditorId (window st') = nextEditorId (window st) /\
   diffViews (window st') = diffViews (window st)).
Proof.
  intros st'. subst st'. unfold after, hasPendingSuggestion.
  remember (run dispose st) as res eqn:E.
  explore E; conclude res; split_and!; try reflexivity; by destruct (ui st).
Qed.

(** ** Failures of an accept *)

(** The host refuses the edit: [acceptSuggestion] raises 'Failed to apply
    edit', which its own handler reports.  Nothing is saved, no second edit
    is tried, the text is what it was; the handler shows the document
    again, and the suggestion stays pending. *)
Theorem accept_rejected_edit_aborts st s text :
  currentSuggestion (manager st) = Some s ->
  documents (workspace st) !! document (editor s) = Some text ->
  acceptsEdit (conduct st) (document (editor s)) = false ->
  let uri := document (editor s) in
  let st' := after acceptSuggestion st in
  let reopened := mkEditor (nextEditorId (window st)) uri in
  completes acceptSuggestion st /\
  notifications (ui st') =
    notifications (ui st) ++ [ErrorMessage "Error applying suggestion: Failed to apply edit"] /\
  (documents (workspace st') = documents (workspace st) /\
   disk (workspace st') = disk (workspace st)) /\
  (editCalls (journal st') =
     editCalls (journal st) ++ [Edit reopened (range s) (newCode s) (Some false)] /\
   saveCalls (journal st') = saveCalls (journal st)) /\
  journal st' = journal st ++
    [CloseAllEditors; OpenTextDocument uri true;
     ShowTextDocument uri (Some (editorId reopened));
     Edit reopened (range s) (newCode s) (Some false);
     OpenTextDocument uri true;
     ShowTextDocument uri (Some (editorId reopened))] /\
  currentSuggestion (manager st') = Some s.
Proof.
  intros Hs Hd Ha uri st' reopened. subst uri st' reopened. unfold after, completes.
  remember (run acceptSuggestion st) as res eqn:E.
  destruct s as [ed r c x]. cbn [editor document range newCode] in *.
  execute E. conclude res. split_and!; try reflexivity. by exists tt.
Qed.

Lemma accept_rejected_edit_aborts_witness :
  let st := with_conduct refusing_edit presented in
  (currentSuggestion (manager st) = Some fix_a /\
   documents (workspace st) !! document (editor fix_a) = Some alphabet /\
   acceptsEdit (conduct st) (document (editor fix_a)) = false) /\
  documents (workspace (after acceptSuggestion st)) !! "a.ts" = Some alphabet /\
  saveCalls (journal (after acceptSuggestion st)) = [].
Proof.
  intros st.
  assert (Hs : currentSuggestion (manager st) = Some fix_a) by (vm_compute; reflexivity).
  assert (Hd : documents (workspace st) !! document (editor fix_a) = Some alphabet)
    by (vm_compute; reflexivity).
  assert (Ha : acceptsEdit (conduct st) (document (editor fix_a)) = false)
    by (vm_compute; reflexivity).
  split; [done|].
  destruct (accept_rejected_edit_aborts st fix_a alphabet Hs Hd Ha)
    as (_ & _ & (Hdoc & _) & (_ & Hsave) & _).
  rewrite Hdoc, Hsave. split; vm_compute; reflexivity.
Defined.

(** The host cannot resolve the document: no edit is tried and nothing is
    saved.  The error of the host is shown after 'Error applying
    suggestion: '; the attempt of the handler to show the document again
    fails as well and is logged.  Every editor has been closed by then, and
    the suggestion stays pending. *)
Theorem accept_unavailable_document st s :
  currentSuggestion (manager st) = Some s ->
  documents (workspace st) !! document (editor s) = None ->
  let uri := document (editor s) in
  let st' := after acceptSuggestion st in
  completes acceptSuggestion st /\
  (exists msg,
     notifications (ui st') =
       notifications (ui st) ++ [ErrorMessage ("Error applying suggestion: " +:+ msg)] /\
     console (ui st') =
       console (ui st) ++ ["Error applying suggestion: " +:+ msg;
                           "Could not reopen document: " +:+ msg]) /\
  (workspace st' = workspace st /\
   editCalls (journal st') = editCalls (journal st) /\
   saveCalls (journal st') = saveCalls (journal st)) /\
  journal st' = journal st ++
    [CloseAllEditors; OpenTextDocument uri false; OpenTextDocument uri false] /\
  (visibleTextEditors (window st') = [] /\ diffViews (window st') = []) /\
  currentSuggestion (manager st') = Some s.
Proof.
  intros Hs Hd uri st'. subst uri st'. unfold after, completes.
  remember (run acceptSuggestion st) as res eqn:E.
  destruct s as [ed r c x]. cbn [editor document range newCode] in *.
  execute E. conclude res. split_and!; try reflexivity.
  - by exists tt.
  - by eexists.
Qed.

Lemma accept_unavailable_document_witness :
  let st := on_workspace (with_documents ∅) presented in
  (currentSuggestion (manager st) = Some fix_a /\
   documents (workspace st) !! document (editor fix_a) = None) /\
  journal (after acceptSuggestion st) =
    journal st ++ [CloseAllEditors; OpenTextDocument "a.ts" false;
                   OpenTextDocument "a.ts" false] /\
  currentSuggestion (manager (after acceptSuggestion st)) = Some fix_a.
Proof.
  intros st.
  assert (Hs : currentSuggestion (manager st) = Some fix_a) by (vm_compute; reflexivity).
  assert (Hd : documents (workspace st) !! document (editor fix_a) = None)
    by (vm_compute; reflexivity).
  split; [done|].
  destruct (accept_unavailable_document st fix_a Hs Hd) as (_ & _ & _ & Hj & _ & Hcur).
  split; [exact Hj | exact Hcur].
Defined.

(** ** The second copy of [acceptSuggestion] *)

(** The document has been closed: the second copy opens it by its URI, shows
    it (in the editor that shows it already, if there is one) and applies
    the edit through the editor it gets.  No editor is closed.  The document
    is saved exactly when [autoSave] is set and true. *)
Theorem second_copy_reopens_closed_document st s text :
  currentSuggestion (manager st) = Some s ->
  document (editor s) ∉ textDocuments (workspace st) ->
  documents (workspace st) !! document (editor s) = Some text ->
  acceptsEdit (conduct st) (document (editor s)) = true ->
  let uri := document (editor s) in
  let st' := after Alt.acceptSuggestion st in
  let shown := default (mkEditor (nextEditorId (window st)) uri)
                       (anyEditorOf uri (visibleTextEditors (window st))) in
  completes Alt.acceptSuggestion st /\
  notifications (ui st') =
    notifications (ui st) ++ [Information "✓ AI suggestion accepted!" []] /\
  documents (workspace st') =
    <[uri := replaceRange (range s) (newCode s) text]> (documents (workspace st)) /\
  journal st' = journal st ++
    [OpenTextDocument uri true; ShowTextDocument uri (Some (editorId shown));
     Edit shown (range s) (newCode s) (Some true)] ++
    (if truthy (autoSave (configuration (workspace st)))
     then [Save uri (savesOk (conduct st) uri)] else []) ++
    [SetDecorations (editorId (editor s)) []; SetContext false] /\
  idle st'.
Proof.
  intros Hs Hopen Hd Ha uri st' shown. subst uri st' shown.
  unfold after, completes, idle, hasPendingSuggestion.
  destruct s as [ed r c x]. cbn [editor document range newCode] in *.
  assert (Hex : existsb (fun doc => bool_decide (doc = document ed))
                        (textDocuments (workspace st)) = false).
  { apply not_true_is_false. intros (d & Hin & Heq)%existsb_exists.
    apply bool_decide_eq_true_1 in Heq. subst d. by apply Hopen, list_elem_of_In. }
  clear Hopen.
  remember (run Alt.acceptSuggestion st) as res eqn:E.
  explore_views E; conclude res; split_and!; try reflexivity; by exists tt.
Qed.

Lemma second_copy_reopens_closed_document_witness :
  let st := on_workspace (with_textDocuments []) presented in
  (currentSuggestion (manager st) = Some fix_a /\
   (document (editor fix_a) ∉ textDocuments (workspace st)) /\
   documents (workspace st) !! document (editor fix_a) = Some alphabet /\
   acceptsEdit (conduct st) (document (editor fix_a)) = true) /\
  documents (workspace (after Alt.acceptSuggestion st)) !! "a.ts"
  = Some "0123456789fixed()pqrstuvwxyz".
Proof.
  intros st.
  assert (Hs : currentSuggestion (manager st) = Some fix_a) by (vm_compute; reflexivity).
  assert (Hc : document (editor fix_a) ∉ textDocuments (workspace st))
    by (vm_compute; apply not_elem_of_nil).
  assert (Hd : documents (workspace st) !! document (editor fix_a) = Some alphabet)
    by (vm_compute; reflexivity).
  assert (Ha : acceptsEdit (conduct st) (document (editor fix_a)) = true)
    by (vm_compute; reflexivity).
  split; [done|].
  destruct (second_copy_reopens_closed_document st fix_a alphabet Hs Hc Hd Ha)
    as (_ & _ & Hdoc & _).
  rewrite Hdoc. rewrite lookup_insert_eq. vm_compute. reflexivity.
Defined.

(** C2, on the second copy of the class.  The editor of the suggestion has
    been closed, the document is still open and no editor has the focus:
    the second copy does not reopen the document, it edits through the
    editor it stored.  The host rejects an edit through a closed editor;
    the error is reported, no edit is applied, the text is what it was and
    the suggestion stays pending.  The first copy reopens the document in
    this state and applies the edit. *)
Theorem second_copy_fails_on_closed_editor st s :
  currentSuggestion (manager st) = Some s ->
  activeTextEditor (window st) = None ->
  editor s ∉ visibleTextEditors (window st) ->
  document (editor s) ∈ textDocuments (workspace st) ->
  let st' := after Alt.acceptSuggestion st in
  completes Alt.acceptSuggestion st /\
  notifications (ui st') =
    notifications (ui st) ++
    [ErrorMessage "Failed to apply suggestion: TextEditor#edit not possible on closed editors"] /\
  journal st' = journal st ++ [Edit (editor s) (range s) (newCode s) None] /\
  workspace st' = workspace st /\
  window st' = window st /\
  currentSuggestion (manager st') = Some s.
Proof.
  intros Hs Hact Hvis Hopen st'. subst st'. unfold after, completes.
  destruct s as [ed r c x]. cbn [editor document range newCode] in *.
  assert (Hin : bool_decide (ed ∈ visibleTextEditors (window st)) = false)
    by (by apply bool_decide_eq_false_2).
  assert (Hex : existsb (fun doc => bool_decide (doc = document ed))
                        (textDocuments (workspace st)) = true).
  { apply existsb_exists. exists (document ed). split.
    - by apply list_elem_of_In.
    - apply bool_decide_refl. }
  clear Hvis Hopen.
  remember (run Alt.acceptSuggestion st) as res eqn:E.
  execute E. conclude res. split_and!; try reflexivity. by exists tt.
Qed.

Lemma second_copy_fails_on_closed_editor_witness :
  (currentSuggestion (manager presented) = Some fix_a /\
   activeTextEditor (window presented) = None /\
   (editor fix_a ∉ visibleTextEditors (window presented)) /\
   (document (editor fix_a) ∈ textDocuments (workspace presented))) /\
  documents (workspace (after Alt.acceptSuggestion presented)) !! "a.ts" = Some alphabet /\
  currentSuggestion (manager (after Alt.acceptSuggestion presented)) = Some fix_a.
Proof.
  assert (Hs : currentSuggestion (manager presented) = Some fix_a)
    by (vm_compute; reflexivity).
  assert (Hact : activeTextEditor (window presented) = None) by (vm_compute; reflexivity).
  assert (Hvis : editor fix_a ∉ visibleTextEditors (window presented))
    by (vm_compute; apply not_elem_of_nil).
  assert (Hopen : document (editor fix_a) ∈ textDocuments (workspace presented))
    by (vm_compute; apply list_elem_of_here).
  split; [done|].
  destruct (second_copy_fails_on_closed_editor presented fix_a Hs Hact Hvis Hopen)
    as (_ & _ & _ & Hw & _ & Hcur).
  rewrite Hw. split; [vm_compute; reflexivity | exact Hcur].
Defined.

(** ** The second copy, with the editor in place *)

(** The editor of the suggestion still has the focus and the host applies
    the edit: the second copy edits through that editor and closes nothing;
    the editors and the tabs are what they were.  The document is saved
    exactly when [autoSave] is set and true: a key without a value counts
    as off here, while it counts as on in the first copy. *)
Theorem second_copy_edits_in_place st s text :
  currentSuggestion (manager st) = Some s ->
  activeTextEditor (window st) = Some (editor s) ->
  editor s ∈ visibleTextEditors (window st) ->
  document (editor s) ∈ textDocuments (workspace st) ->
  documents (workspace st) !! document (editor s) = Some text ->
  acceptsEdit (conduct st) (document (editor s)) = true ->
  let uri := document (editor s) in
  let st' := after Alt.acceptSuggestion st in
  journal st' = journal st ++
    [Edit (editor s) (range s) (newCode s) (Some true)] ++
    (if truthy (autoSave (configuration (workspace st)))
     then [Save uri (savesOk (conduct st) uri)] else []) ++
    [SetDecorations (editorId (editor s)) []; SetContext false] /\
  documents (workspace st') =
    <[uri := replaceRange (range s) (newCode s) text]> (documents (workspace st)) /\
  (visibleTextEditors (window st') = visibleTextEditors (window st) /\
   activeTextEditor (window st') = activeTextEditor (window st) /\
   diffViews (window st') = diffViews (window st)) /\
  notifications (ui st') =
    notifications (ui st) ++ [Information "✓ AI suggestion accepted!" []] /\
  idle st'.
Proof.
  intros Hs Hact Hvis Hopen Hd Ha uri st'. subst uri st'.
  unfold after, idle, hasPendingSuggestion.
  destruct s as [ed r c x]. cbn [editor document range newCode] in *.
  assert (Hin : bool_decide (ed ∈ visibleTextEditors (window st)) = true)
    by (by apply bool_decide_eq_true_2).
  assert (Hex : existsb (fun doc => bool_decide (doc = document ed))
                        (textDocuments (workspace st)) = true).
  { apply existsb_exists. exists (document ed). split.
    - by apply list_elem_of_In.
    - apply bool_decide_refl. }
  clear Hvis Hopen.
  remember (run Alt.acceptSuggestion st) as res eqn:E.
  explore E; conclude res; split_and!; try reflexivity.
Qed.

Lemma second_copy_edits_in_place_witness :
  let st := with_conduct obliging presented_in_place in
  (currentSuggestion (manager st) = Some fix_a /\
   activeTextEditor (window st) = Some (editor fix_a) /\
   (editor fix_a ∈ visibleTextEditors (window st)) /\
   (document (editor fix_a) ∈ textDocuments (workspace st)) /\
   documents (workspace st) !! document (editor fix_a) = Some alphabet /\
   acceptsEdit (conduct st) (document (editor fix_a)) = true) /\
  documents (workspace (after Alt.acceptSuggestion st)) !! "a.ts"
  = Some "0123456789fixed()pqrstuvwxyz".
Proof.
  intros st.
  assert (Hs : currentSuggestion (manager st) = Some fix_a) by (vm_compute; reflexivity).
  assert (Hact : activeTextEditor (window st) = Some (editor fix_a))
    by (vm_compute; reflexivity).
  assert (Hvis : editor fix_a ∈ visibleTextEditors (window st))
    by (vm_compute; apply list_elem_of_here).
  assert (Hopen : document (editor fix_a) ∈ textDocuments (workspace st))
    by (vm_compute; apply list_elem_of_here).
  assert (Hd : documents (workspace st) !! document (editor fix_a) = Some alphabet)
    by (vm_compute; reflexivity).
  assert (Ha : acceptsEdit (conduct st) (document (editor fix_a)) = true)
    by (vm_compute; reflexivity).
  split; [done|].
  destruct (second_copy_edits_in_place st fix_a alphabet Hs Hact Hvis Hopen Hd Ha)
    as (_ & Hdoc & _).
  rewrite Hdoc. rewrite lookup_insert_eq. vm_compute. reflexivity.
Defined.

(** ** The diff and its fallback *)

(** The host cannot open the diff: [showSuggestion] completes all the same.
    The failure is logged, the output channel shows the proposed code under
    its heading, no tab is opened or closed, and the suggestion is pending
    with its prompt shown. *)
Theorem diff_failure_falls_back st e r c x :
  opensDiff (conduct st) ("ai-original:" +:+ document e) = false ->
  let st' := after (showSuggestion e r c x) st in
  completes (showSuggestion e r c x) st /\
  outputChannels (ui st') =
    outputChannels (ui st) ++ [("AI Suggestion", ["=== SUGGESTED CODE ==="; c])] /\
  (exists msg, console (ui st') = console (ui st) ++ ["Failed to show diff: " +:+ msg]) /\
  (visibleTextEditors (window st') = visibleTextEditors (window st) /\
   activeTextEditor (window st') = activeTextEditor (window st) /\
   diffViews (window st') = diffViews (window st)) /\
  currentSuggestion (manager st') = Some (mkSuggestion e r c x) /\
  notifications (ui st') =
    notifications (ui st) ++
    [Information ("💡 " +:+ x +:+ nl +:+ nl
                    +:+ "Review the diff and press Ctrl+Enter to accept or Esc to reject")
                 ["Show Full Explanation"]].
Proof.
  intros Hdiff st'. subst st'. unfold after, completes. simp in Hdiff.
  remember (run (showSuggestion e r c x) st) as res eqn:E.
  explore E; conclude res; split_and!; try reflexivity; first [by exists tt | by eexists].
Qed.

Lemma diff_failure_falls_back_witness :
  let st := with_conduct unable fresh_session in
  opensDiff (conduct st) ("ai-original:" +:+ document view_a) = false /\
  outputChannels (ui (after (showSuggestion view_a (mkRange 10 25) "fixed()" "why") st))
  = [("AI Suggestion", ["=== SUGGESTED CODE ==="; "fixed()"])].
Proof.
  intros st.
  assert (Hdiff : opensDiff (conduct st) ("ai-original:" +:+ document view_a) = false)
    by reflexivity.
  split; [exact Hdiff|].
  by destruct (diff_failure_falls_back st view_a (mkRange 10 25) "fixed()" "why" Hdiff)
    as (_ & Hout & _).
Defined.

(** The host opens the diff: the tab compares the text of the range, as it
    was when the suggestion was presented, with the proposed code; the
    output channel is not used and nothing is logged. *)
Theorem diff_shows_range_against_proposal st e r c x :
  opensDiff (conduct st) ("ai-original:" +:+ document e) = true ->
  let st' := after (showSuggestion e r c x) st in
  let shown := mkDiff ("ai-original:" +:+ document e) ("ai-suggestion:" +:+ document e)
                      (getText r (default "" (documents (workspace st) !! document e))) c in
  last (diffViews (window st')) = Some shown /\
  outputChannels (ui st') = outputChannels (ui st) /\
  console (ui st') = console (ui st) /\
  subscriptions (manager st') = subscriptions (manager st) ++ ["ai-original"; "ai-suggestion"].
Proof.
  intros Hdiff st' shown. subst st' shown. unfold after. simp in Hdiff.
  remember (run (showSuggestion e r c x) st) as res eqn:E.
  explore E; conclude res; rewrite <- ?List.app_assoc; split_and!; try reflexivity;
    apply last_snoc.
Qed.

Lemma diff_shows_range_against_proposal_witness :
  opensDiff (conduct fresh_session) ("ai-original:" +:+ document view_a) = true /\
  last (diffViews (window presented)) =
    Some (mkDiff "ai-original:a.ts" "ai-suggestion:a.ts" "abcdefghijklmno" "fixed()").
Proof.
  assert (Hdiff : opensDiff (conduct fresh_session) ("ai-original:" +:+ document view_a) = true)
    by reflexivity.
  split; [exact Hdiff|].
  destruct (diff_shows_range_against_proposal fresh_session view_a (mkRange 10 25)
              "fixed()" "Call the fixed routine" Hdiff) as (Hlast & _).
  exact Hlast.
Defined.

(** ** The highlight *)

(** [showSuggestion] registers the highlight of the range exactly when
    [showInlineDecorations] is set and true; it sets no decoration itself. *)
Theorem highlight_is_deferred st e r c x :
  let st' := after (showSuggestion e r c x) st in
  timers (ui st') =
    timers (ui st) ++
    (if truthy (showInlineDecorations (configuration (workspace st)))
     then [HighlightOriginal (document e) r] else []) /\
  decorations (window st') =
    match currentSuggestion (manager st) with
    | Some old => <[editorId (editor old) := []]> (decorations (window st))
    | None => decorations (window st)
    end.
Proof.
  intros st'. subst st'. unfold after.
  remember (run (showSuggestion e r c x) st) as res eqn:E.
  explore E; conclude res; split; try reflexivity; by rewrite List.app_nil_r.
Qed.

(** When the timer fires, the range is highlighted in the first visible
    editor that shows the document, whichever editor the suggestion was
    presented on; when no visible editor shows it, nothing happens.  In both
    cases the timer is consumed and the pending suggestion is untouched. *)
Theorem timer_highlights_a_visible_editor st uri r rest :
  timers (ui st) = HighlightOriginal uri r :: rest ->
  let st' := fireTimer st in
  timers (ui st') = rest /\
  manager st' = manager st /\
  workspace st' = workspace st /\
  match anyEditorOf uri (visibleTextEditors (window st)) with
  | Some e =>
      document e = uri /\
      decorations (window st') = <[editorId e := [r]]> (decorations (window st)) /\
      journal st' = journal st ++ [SetDecorations (editorId e) [r]]
  | None =>
      decorations (window st') = decorations (window st) /\
      journal st' = journal st
  end.
Proof.
  intros Ht st'. subst st'. unfold fireTimer. rewrite Ht.
  remember (run (timerCallback (HighlightOriginal uri r)) (on_ui (with_timers rest) st))
    as res eqn:E.
  unfold_program E. step E use_facts.
  destruct (anyEditorOf uri (visibleTextEditors (window st))) as [e|] eqn:Hfind.
  - destruct (anyEditorOf_Some _ _ _ Hfind) as [_ Hdoc].
    rewrite ?Hfind in E. simp in E.
    repeat (step E use_facts). rewrite run_Ret in E. by subst res.
  - rewrite ?Hfind in E. simp in E. rewrite run_Ret in E. by subst res.
Qed.

Lemma timer_highlights_a_visible_editor_witness :
  let st := after (showSuggestion (editor fix_a) (range fix_a) (newCode fix_a)
                                  (explanation fix_a)) split_session in
  timers (ui st) = [HighlightOriginal "a.ts" (mkRange 10 25)] /\
  decorations (window (fireTimer st)) !! editorId left_a = Some [mkRange 10 25] /\
  decorations (window (fireTimer st)) !! editorId view_a = None.
Proof.
  intros st.
  assert (Ht : timers (ui st) = [HighlightOriginal "a.ts" (mkRange 10 25)])
    by (vm_compute; reflexivity).
  split; [exact Ht|].
  pose proof (timer_highlights_a_visible_editor st "a.ts" (mkRange 10 25) [] Ht) as H.
  cbv zeta in H. destruct H as (_ & _ & _ & H).
  split; vm_compute; reflexivity.
Defined.

(** ** Rejecting, on the first copy *)

(** [rejectSuggestion] closes every editor and shows the document again.
    When the host resolves the document, the reopened editor is the only
    one left and the rejection is notified; when it does not, the error is
    logged and the user is told nothing.  In both cases the manager ends
    idle. *)
Theorem reject_closes_and_reopens st s :
  currentSuggestion (manager st) = Some s ->
  let uri := document (editor s) in
  let st' := after rejectSuggestion st in
  let reopened := mkEditor (nextEditorId (window st)) uri in
  completes rejectSuggestion st /\
  idle st' /\
  diffViews (window st') = [] /\
  match documents (workspace st) !! uri with
  | Some _ =>
      visibleTextEditors (window st') = [reopened] /\
      notifications (ui st') = notifications (ui st) ++ [Information "AI suggestion rejected" []] /\
      console (ui st') = console (ui st) /\
      journal st' = journal st ++
        [CloseAllEditors; OpenTextDocument uri true;
         ShowTextDocument uri (Some (editorId reopened));
         SetDecorations (editorId (editor s)) []; SetContext false]
  | None =>
      visibleTextEditors (window st') = [] /\
      notifications (ui st') = notifications (ui st) /\
      (exists msg, console (ui st') = console (ui st) ++ ["Error rejecting suggestion: " +:+ msg]) /\
      journal st' = journal st ++
        [CloseAllEditors; OpenTextDocument uri false;
         SetDecorations (editorId (editor s)) []; SetContext false]
  end.
Proof.
  intros Hs uri st' reopened. subst uri st' reopened.
  unfold after, completes, idle, hasPendingSuggestion.
  remember (run rejectSuggestion st) as res eqn:E.
  destruct s as [ed r c x]. cbn [editor document range newCode] in *.
  explore E; conclude res; split_and!; try reflexivity; first [by exists tt | by eexists].
Qed.

Lemma reject_closes_and_reopens_witness :
  currentSuggestion (manager presented) = Some fix_a /\
  visibleTextEditors (window (after rejectSuggestion presented)) = [mkEditor 2 "a.ts"] /\
  documents (workspace (after rejectSuggestion presented)) !! "a.ts" = Some alphabet.
Proof.
  assert (Hs : currentSuggestion (manager presented) = Some fix_a)
    by (vm_compute; reflexivity).
  split; [exact Hs|].
  pose proof (reject_closes_and_reopens presented fix_a Hs) as H. cbv zeta in H.
  destruct H as (_ & _ & _ & H).
  split; vm_compute; reflexivity.
Defined.

(** ** Disposal, twice *)

(** A second [dispose] changes nothing but the journal of the calls made:
    the decoration is cleared and the decoration type disposed again. *)
Theorem dispose_twice st :
  let st1 := after dispose st in
  let st2 := after dispose st1 in
  manager st2 = manager st1 /\
  workspace st2 = workspace st1 /\
  window st2 = window st1 /\
  ui st2 = ui st1 /\
  journal st2 = journal st1 ++
    match currentSuggestion (manager st) with
    | Some s => [SetDecorations (editorId (editor s)) []; DisposeDecorationType]
    | None => [DisposeDecorationType]
    end.
Proof.
  intros st1 st2. subst st1 st2. unfold after.
  remember (run dispose st) as res eqn:E.
  remember (run dispose res.2) as res2 eqn:E2.
  explore E; subst res; simp in E2; explore E2; use_facts E2;
    repeat (step E2 use_facts); rewrite ?run_Ret in E2; subst res2; simp;
    split_and!; try reflexivity; by rewrite <- !List.app_assoc.
Qed.

(** ** The context key *)

(** Every operation of the class, in both copies, and the timer keep the
    context key in step with the field [currentSuggestion]. *)
Theorem context_key_mirrors_field st e r c x :
  inSync st ->
  inSync (after (showSuggestion e r c x) st) /\
  inSync (after acceptSuggestion st) /\
  inSync (after rejectSuggestion st) /\
  inSync (after dispose st) /\
  inSync (fireTimer st) /\
  inSync (after Alt.acceptSuggestion st) /\
  inSync (after Alt.rejectSuggestion st).
Proof.
  intros Hsync. unfold inSync, hasPendingSuggestion, after in *. split_and!.
  - remember (run (showSuggestion e r c x) st) as res eqn:E.
    explore E; by conclude res.
  - remember (run acceptSuggestion st) as res eqn:E.
    explore E; by conclude res.
  - remember (run rejectSuggestion st) as res eqn:E.
    explore E; by conclude res.
  - remember (run dispose st) as res eqn:E.
    explore E; by conclude res.
  - unfold fireTimer. destruct (timers (ui st)) as [|[uri r'] rest]; [done|].
    remember (run (timerCallback (HighlightOriginal uri r')) (on_ui (with_timers rest) st))
      as res eqn:E.
    unfold_program E. step E use_facts.
    destruct (anyEditorOf uri (visibleTextEditors (window st))) as [e'|];
      simp in E; repeat (step E use_facts); rewrite ?run_Ret in E; by subst res.
  - remember (run Alt.acceptSuggestion st) as res eqn:E.
    explore_views E; by conclude res.
  - remember (run Alt.rejectSuggestion st) as res eqn:E.
    explore E; by conclude res.
Qed.

Lemma context_key_mirrors_field_witness :
  inSync fresh_session /\
  inSync (after acceptSuggestion
            (after (showSuggestion view_a (mkRange 10 25) "fixed()" "why") fresh_session)).
Proof.
  assert (H0 : inSync fresh_session) by reflexivity.
  split; [exact H0|].
  destruct (context_key_mirrors_field fresh_session view_a (mkRange 10 25) "fixed()" "why" H0)
    as (H1 & _).
  by destruct (context_key_mirrors_field _ view_a (mkRange 10 25) "fixed()" "why" H1)
    as (_ & H2 & _).
Defined.

(** ** Presenting twice, then accepting *)

(** What [showSuggestion] leaves alone: the documents, what is saved, the
    configuration, the answers of the host and the next editor id; it makes
    no edit and saves nothing. *)
Lemma showSuggestion_frame st e r c x :
  let st' := after (showSuggestion e r c x) st in
  (documents (workspace st') = documents (workspace st) /\
   disk (workspace st') = disk (workspace st) /\
   configuration (workspace st') = configuration (workspace st)) /\
  conduct st' = conduct st /\
  nextEditorId (window st') = nextEditorId (window st) /\
  editCalls (journal st') = editCalls (journal st) /\
  saveCalls (journal st') = saveCalls (journal st) /\
  currentSuggestion (manager st') = Some (mkSuggestion e r c x).
Proof.
  intros st'. subst st'. unfold after.
  remember (run (showSuggestion e r c x) st) as res eqn:E.
  explore E; by conclude res.
Qed.

(** A second suggestion presented before the first was settled replaces
    it: the accept that follows applies the second suggestion, and only
    that one. *)
Theorem accept_applies_the_latest st e1 r1 c1 x1 e2 r2 c2 x2 text :
  documents (workspace st) !! document e2 = Some text ->
  acceptsEdit (conduct st) (document e2) = true ->
  let st1 := after (showSuggestion e1 r1 c1 x1) st in
  let st2 := after (showSuggestion e2 r2 c2 x2) st1 in
  let st3 := after acceptSuggestion st2 in
  editCalls (journal st3) =
    editCalls (journal st) ++
    [Edit (mkEditor (nextEditorId (window st)) (document e2)) r2 c2 (Some true)] /\
  documents (workspace st3) = <[document e2 := replaceRange r2 c2 text]> (documents (workspace st)) /\
  idle st3.
Proof.
  intros Hd Ha st1 st2 st3. subst st1 st2 st3.
  pose proof (showSuggestion_frame st e1 r1 c1 x1) as H1. cbv zeta in H1.
  destruct H1 as ((Hdoc1 & _) & Hc1 & Hn1 & He1 & _).
  set (st1 := after (showSuggestion e1 r1 c1 x1) st) in *.
  pose proof (showSuggestion_frame st1 e2 r2 c2 x2) as H2. cbv zeta in H2.
  destruct H2 as ((Hdoc2 & _) & Hc2 & Hn2 & He2 & _ & Hcur2).
  set (st2 := after (showSuggestion e2 r2 c2 x2) st1) in *.
  assert (Hd2 : documents (workspace st2) !! document (editor (mkSuggestion e2 r2 c2 x2))
                = Some text) by (by rewrite Hdoc2, Hdoc1).
  assert (Ha2 : acceptsEdit (conduct st2) (document (editor (mkSuggestion e2 r2 c2 x2)))
                = true) by (by rewrite Hc2, Hc1).
  pose proof (accept_applies st2 _ text Hcur2 Hd2 Ha2) as H3. cbv zeta in H3.
  cbn [editor range newCode] in H3.
  destruct H3 as ((_ & Hm & Hflag & _) & (Hdoc3 & _) & _ & Hj).
  split_and!.
  - rewrite Hj. journal_norm. fold (editCalls (journal st2)).
    rewrite He2, He1, Hn2, Hn1.
    by destruct (default true (autoSave (configuration (workspace st2)))).
  - by rewrite Hdoc3, Hdoc2, Hdoc1.
  - split; [by rewrite Hm | exact Hflag].
Qed.

Lemma accept_applies_the_latest_witness :
  (documents (workspace fresh_session) !! document view_a = Some alphabet /\
   acceptsEdit (conduct fresh_session) (document view_a) = true) /\
  documents (workspace
    (after acceptSuggestion
       (after (showSuggestion view_a (mkRange 0 5) "second()" "y")
          (after (showSuggestion view_a (mkRange 10 25) "fixed()" "x") fresh_session))))
    !! "a.ts" = Some "second()56789abcdefghijklmnopqrstuvwxyz".
Proof.
  assert (Hd : documents (workspace fresh_session) !! document view_a = Some alphabet)
    by (vm_compute; reflexivity).
  assert (Ha : acceptsEdit (conduct fresh_session) (document view_a) = true)
    by reflexivity.
  split; [done|].
  destruct (accept_applies_the_latest fresh_session
              view_a (mkRange 10 25) "fixed()" "x"
              view_a (mkRange 0 5) "second()" "y" alphabet Hd Ha) as (_ & Hdoc & _).
  rewrite Hdoc. rewrite lookup_insert_eq. vm_compute. reflexivity.
Defined.

(** ** The AI service *)

Lemma or_default_truthy v literal :
  truthyString (Some literal) = true -> truthyString (Some (or_default v literal)) = true.
Proof. by destruct v as [[|c s]|]. Qed.

Lemma parsed_code data action :
  let result := AIService.parseResponse data action in
  AIService.code result = AIService.fixed_code result /\
  AIService.code result =
    (if truthyString (AIService.data_fixed_code data)
     then AIService.data_fixed_code data else None).
Proof.
  unfold AIService.parseResponse.
  destruct (truthyString (AIService.data_review data)),
           (truthyString (AIService.data_fixed_code data)),
           (AIService.data_effort_estimation_minutes data) as [[| |]|],
           (String.eqb action "explain"), (String.eqb action "document"),
           (String.eqb action "test"), (String.eqb action "refactor"); by cbn.
Qed.

Lemma parsed_explanation data action :
  AIService.explanation (AIService.parseResponse data action) =
  if String.eqb action "document" then Some "Documentation added"
  else if String.eqb action "test" then Some "Unit tests generated"
  else if String.eqb action "refactor" then Some "Code refactored"
  else if String.eqb action "explain" && truthyString (AIService.data_review data)
       then AIService.data_review data
  else None.
Proof.
  unfold AIService.parseResponse.
  destruct (String.eqb_spec action "explain") as [->|]; [cbn|];
  destruct (truthyString (AIService.data_review data)),
           (truthyString (AIService.data_fixed_code data)),
           (AIService.data_effort_estimation_minutes data) as [[| |]|];
  try by cbn.
  all: destruct (String.eqb action "document"),
           (String.eqb action "test"), (String.eqb action "refactor"); by cbn.
Qed.

Lemma parsed_review data action :
  AIService.review (AIService.parseResponse data action) =
  if negb (String.eqb action "explain") && truthyString (AIService.data_review data)
  then AIService.data_review data else None.
Proof.
  unfold AIService.parseResponse.
  destruct (String.eqb_spec action "explain") as [->|]; [cbn|];
  destruct (truthyString (AIService.data_review data)),
           (truthyString (AIService.data_fixed_code data)),
           (AIService.data_effort_estimation_minutes data) as [[| |]|];
  try by cbn.
  all: destruct (String.eqb action "document"),
           (String.eqb action "test"), (String.eqb action "refactor"); by cbn.
Qed.

(** What a command proposes: [result.code || result.fixed_code || selectedText]
    is the fixed code of the backend, or the selection when there is none. *)
Lemma proposed_code data action selectedText :
  or_default (or_else (AIService.code (AIService.parseResponse data action))
                      (AIService.fixed_code (AIService.parseResponse data action)))
             selectedText
  = or_default (AIService.data_fixed_code data) selectedText.
Proof.
  destruct (parsed_code data action) as [<- ->].
  by destruct (AIService.data_fixed_code data) as [[|c s]|].
Qed.

(** [parseResponse] sets [code] and [fixed_code] together: they are equal,
    and when they are set they hold the non-empty [fixed_code] of the
    backend.  An empty [fixed_code] is dropped like a missing one. *)
Theorem parseResponse_code_is_fixed_code data action :
  let result := AIService.parseResponse data action in
  AIService.code result = AIService.fixed_code result /\
  AIService.code result =
    (if truthyString (AIService.data_fixed_code data)
     then AIService.data_fixed_code data else None).
Proof. exact (parsed_code data action). Qed.

(** The review of the backend lands in one field of the answer: in
    [explanation] for [explain], in [review] for every other action.  For
    [document], [test] and [refactor] the explanation is a fixed sentence,
    whatever the backend says; for [fix] and [review] there is none. *)
Theorem parseResponse_review_lands_once data action :
  let result := AIService.parseResponse data action in
  AIService.explanation result =
    (if String.eqb action "document" then Some "Documentation added"
     else if String.eqb action "test" then Some "Unit tests generated"
     else if String.eqb action "refactor" then Some "Code refactored"
     else if String.eqb action "explain" && truthyString (AIService.data_review data)
          then AIService.data_review data
     else None) /\
  AIService.review result =
    (if negb (String.eqb action "explain") && truthyString (AIService.data_review data)
     then AIService.data_review data else None).
Proof. split; [apply parsed_explanation | apply parsed_review]. Qed.

(** A language that [mapLanguage] answers is mapped to itself: the values
    of the table are among its keys, and so is the default. *)
Theorem mapLanguage_idempotent vscodeLanguage name :
  AIService.mapLanguage vscodeLanguage = AIService.Language name ->
  AIService.mapLanguage name = AIService.Language name.
Proof.
  unfold AIService.mapLanguage at 1. unfold AIService.languageMap.
  cbn [AIService.ownProperty].
  repeat (destruct (String.eqb vscodeLanguage _);
          [intros [= <-]; vm_compute; reflexivity|]).
  destruct (existsb _ _); [done|]. intros [= <-]. vm_compute. reflexivity.
Qed.

Lemma mapLanguage_idempotent_witness :
  AIService.mapLanguage "c" = AIService.Language "cpp" /\
  AIService.mapLanguage "cpp" = AIService.Language "cpp".
Proof.
  assert (H : AIService.mapLanguage "c" = AIService.Language "cpp") by reflexivity.
  split; [exact H|]. exact (mapLanguage_idempotent "c" "cpp" H).
Defined.

(** The request of [processCode]: the selected code is sent as it is,
    except for [explain], where it is sent inside the prompt; the focus of
    the configuration is used for [review] only; a fix is asked for [fix],
    [refactor], [document] and [test], an estimate of the effort for
    [review], and never both. *)
Theorem reviewRequest_modes backendUrl customRules focus code language action :
  let request := AIService.reviewRequest backendUrl customRules focus code language action in
  AIService.body_code request =
    (if String.eqb action "explain"
     then "Explain what this " +:+ language +:+ " code does:" +:+ nl +:+ nl +:+ code
     else code) /\
  AIService.body_focus request = (if String.eqb action "review" then focus else "general") /\
  AIService.body_auto_fix request =
    (String.eqb action "fix" || String.eqb action "refactor" ||
     String.eqb action "document" || String.eqb action "test") /\
  AIService.body_estimate_effort request = String.eqb action "review" /\
  AIService.body_auto_fix request && AIService.body_estimate_effort request = false.
Proof.
  unfold AIService.reviewRequest, AIService.buildPrompt.
  cbn [AIService.body_code AIService.body_focus AIService.body_auto_fix
       AIService.body_estimate_effort existsb].
  destruct (String.eqb_spec action "explain") as [->|]; [by cbn|].
  destruct (String.eqb_spec action "fix") as [->|]; [by cbn|].
  destruct (String.eqb_spec action "refactor") as [->|]; [by cbn|].
  destruct (String.eqb_spec action "document") as [->|]; [by cbn|].
  destruct (String.eqb_spec action "test") as [->|]; [by cbn|].
  by destruct (String.eqb action "review").
Qed.

(** The error that [processCode] throws always carries a message: each
    case of its handler ends in a sentence that is not empty. *)
Theorem processCodeError_says_something backendUrl error :
  truthyString (Some (AIService.processCodeError backendUrl error)) = true.
Proof.
  unfold AIService.processCodeError.
  destruct (strictEquals _ _); [done|].
  destruct (AIService.error_response error) as [data|].
  - by apply or_default_truthy.
  - destruct (AIService.error_request error); [done|]. by apply or_default_truthy.
Qed.

(** ** The commands *)

Ltac unfold_commands E :=
  unfold Extension.executeCommand, Extension.handleAICommand, Extension.showInOutputPanel,
         AIService.processCode, AIService.getBackendUrl, AIService.getCustomRules,
         AIService.getDefaultFocus in E;
  unfold_program E.

(** Comparisons of literals are computed. *)
Tactic Notation "simp_literals" "in" hyp(E) :=
  cbn [String.eqb Ascii.eqb Bool.eqb orb andb negb] in E; simp in E.

Ltac run_command E :=
  unfold_commands E;
  repeat first [step E use_facts; simp_literals in E | settle E; simp_literals in E];
  rewrite ?run_Ret, ?run_Throw in E.

Theorem commands_need_an_editor_and_a_selection
    post selection languageId isCancellationRequested type progressMessage st :
  let st' := after (Extension.handleAICommand post selection languageId
                      isCancellationRequested type progressMessage) st in
  match activeTextEditor (window st) with
  | None =>
      st' = on_ui (fun u => with_notifications
                     (notifications u ++ [ErrorMessage "No active editor found"]) u) st
  | Some _ =>
      if Extension.isEmpty selection
      then st' = on_ui (fun u => with_notifications
                          (notifications u ++ [Warning "Please select code first"]) u) st
      else True
  end.
Proof.
  intros st'. subst st'. unfold after.
  remember (run _ st) as res eqn:E.
  destruct (activeTextEditor (window st)) as [editor|] eqn:Hact.
  - destruct (Extension.isEmpty selection) eqn:Hsel; [|done].
    unfold_commands E. repeat (step E use_facts). rewrite run_Ret in E. by subst res.
  - unfold_commands E. repeat (step E use_facts). rewrite run_Ret in E. by subst res.
Qed.

(** [await p] on a call of an asynchronous function ends in the state in
    which [p] ends. *)
Lemma run_await_call {A : Type} (p : Async A) st : run (await_call p) st = run p st.
Proof.
  unfold await_call. rewrite run_bind. destruct (run p st) as [[e|a] st']; [done|].
  by rewrite run_Await.
Qed.

(** What a generating command leaves when the backend answers: the
    suggestion it presents, and what it does not touch. *)
Lemma command_presents
    data selection languageId st editor command :
  activeTextEditor (window st) = Some editor ->
  Extension.isEmpty selection = false ->
  command ∈ [Extension.fixCode; Extension.addDocumentation;
             Extension.refactorCode; Extension.generateTests] ->
  let selectedText := getText selection (default EmptyString
                                           (documents (workspace st) !! document editor)) in
  let st' := after (Extension.executeCommand (fun _ => AIService.Responded data)
                      selection languageId false command) st in
  currentSuggestion (manager st') =
    Some (mkSuggestion editor selection
            (or_default (AIService.data_fixed_code data) selectedText)
            (generated command)) /\
  hasPendingSuggestion st' = true /\
  workspace st' = workspace st /\
  conduct st' = conduct st /\
  nextEditorId (window st') = nextEditorId (window st) /\
  appliedEdits (journal st') = appliedEdits (journal st).
Proof.
  intros Hact Hsel Hcmd selectedText st'. subst selectedText st'.
  unfold after, hasPendingSuggestion.
  remember (run _ st) as res eqn:E.
  repeat (apply elem_of_cons in Hcmd as [->|Hcmd]); [..|by apply elem_of_nil in Hcmd].
  all: run_command E; conclude res;
    rewrite ?proposed_code, ?parsed_explanation;
    cbn [String.eqb Ascii.eqb Bool.eqb orb andb negb or_default generated];
    split_and!; try reflexivity; by destruct (workspace st).
Qed.

(** [fixCode], [addDocumentation], [refactorCode] and [generateTests],
    when the backend answers, present a suggestion on the active editor and
    its selection.  The code proposed is the fixed code of the backend, or
    the selected text itself when the backend sends none or an empty one:
    it is never empty.  The explanation is a fixed sentence for each
    command; for [fixCode] it is 'AI-generated code' whatever review the
    backend sends. *)
Theorem generating_commands_present_the_fix
    data selection languageId st editor command :
  activeTextEditor (window st) = Some editor ->
  Extension.isEmpty selection = false ->
  command ∈ [Extension.fixCode; Extension.addDocumentation;
             Extension.refactorCode; Extension.generateTests] ->
  let selectedText := getText selection (default EmptyString
                                           (documents (workspace st) !! document editor)) in
  truthyString (Some selectedText) = true ->
  let st' := after (Extension.executeCommand (fun _ => AIService.Responded data)
                      selection languageId false command) st in
  let proposed := or_default (AIService.data_fixed_code data) selectedText in
  currentSuggestion (manager st') =
    Some (mkSuggestion editor selection proposed (generated command)) /\
  truthyString (Some proposed) = true /\
  hasPendingSuggestion st' = true /\
  documents (workspace st') = documents (workspace st).
Proof.
  intros Hact Hsel Hcmd selectedText Htext st' proposed. subst st' proposed.
  pose proof (command_presents data selection languageId st editor command
                Hact Hsel Hcmd) as H.
  cbv zeta in H. destruct H as (Hcur & Hflag & Hw & _).
  split_and!; [exact Hcur | by apply or_default_truthy | exact Hflag | by rewrite Hw].
Qed.

Lemma generating_commands_present_the_fix_witness :
  let data := AIService.mkData (Some "Looks wrong") (Some "fixed()") None None None in
  (activeTextEditor (window fresh_session) = Some view_a /\
   Extension.isEmpty (mkRange 10 25) = false /\
   (Extension.fixCode ∈ [Extension.fixCode; Extension.addDocumentation;
                         Extension.refactorCode; Extension.generateTests]) /\
   truthyString
     (Some (getText (mkRange 10 25)
              (default EmptyString
                 (documents (workspace fresh_session) !! document view_a)))) = true) /\
  currentSuggestion
    (manager (after (Extension.executeCommand (fun _ => AIService.Responded data)
                       (mkRange 10 25) "typescript" false Extension.fixCode) fresh_session))
  = Some (mkSuggestion view_a (mkRange 10 25) "fixed()" "AI-generated code").
Proof.
  intros data.
  assert (Hact : activeTextEditor (window fresh_session) = Some view_a) by reflexivity.
  assert (Hsel : Extension.isEmpty (mkRange 10 25) = false) by reflexivity.
  assert (Hcmd : Extension.fixCode ∈ [Extension.fixCode; Extension.addDocumentation;
                                      Extension.refactorCode; Extension.generateTests])
    by apply list_elem_of_here.
  assert (Htext : truthyString
                    (Some (getText (mkRange 10 25)
                             (default EmptyString
                                (documents (workspace fresh_session) !! document view_a))))
                  = true) by (vm_compute; reflexivity).
  split; [done|].
  destruct (generating_commands_present_the_fix data (mkRange 10 25) "typescript"
              fresh_session view_a Extension.fixCode Hact Hsel Hcmd Htext) as (Hcur & _).
  rewrite Hcur. vm_compute. reflexivity.
Defined.

(** [explain] and [review] only report: the answer of the backend, or 'No
    response from AI' when it has no review, is shown in a new output
    channel under a heading, and the completion is notified.  The manager,
    the documents, the editors and the calls made are what they were: in
    particular a pending suggestion stays pending. *)
Theorem explain_and_review_only_report
    data selection languageId st editor type progressMessage :
  activeTextEditor (window st) = Some editor ->
  Extension.isEmpty selection = false ->
  type = "explain" \/ type = "review" ->
  let st' := after (Extension.handleAICommand (fun _ => AIService.Responded data)
                      selection languageId false type progressMessage) st in
  (manager st' = manager st /\ workspace st' = workspace st /\
   window st' = window st /\ journal st' = journal st) /\
  outputChannels (ui st') =
    outputChannels (ui st) ++
    [("AI: " +:+ toUpperCase type,
      [repeat_string "=" 80; "AI " +:+ toUpperCase type; repeat_string "=" 80;
       EmptyString;
       or_default (AIService.data_review data) "No response from AI";
       EmptyString; repeat_string "=" 80])] /\
  notifications (ui st') =
    notifications (ui st) ++
    [Information ("✓ " +:+ replace_first "..." EmptyString progressMessage +:+ " complete!") []].
Proof.
  intros Hact Hsel Htype st'. subst st'. unfold after.
  remember (run _ st) as res eqn:E.
  assert (Hmsg : or_default
                   (or_else (AIService.explanation (AIService.parseResponse data type))
                            (AIService.review (AIService.parseResponse data type)))
                   "No response from AI"
                 = or_default (AIService.data_review data) "No response from AI").
  { rewrite parsed_explanation, parsed_review.
    destruct Htype as [-> | ->]; cbn [String.eqb Ascii.eqb Bool.eqb orb andb negb];
      by destruct (AIService.data_review data) as [[|c s]|]. }
  destruct Htype as [-> | ->]; run_command E; rewrite ?Hmsg in E; by conclude res.
Qed.

Lemma explain_and_review_only_report_witness :
  let data := AIService.mkData (Some "Looks wrong") None None None None in
  (activeTextEditor (window fresh_session) = Some view_a /\
   Extension.isEmpty (mkRange 10 25) = false /\
   ("review" = "explain" \/ "review" = "review")) /\
  manager (after (Extension.handleAICommand (fun _ => AIService.Responded data)
                    (mkRange 10 25) "typescript" false "review"
                    "Reviewing code quality...") fresh_session)
  = manager fresh_session.
Proof.
  intros data.
  assert (Hact : activeTextEditor (window fresh_session) = Some view_a) by reflexivity.
  assert (Hsel : Extension.isEmpty (mkRange 10 25) = false) by reflexivity.
  assert (Htype : "review" = "explain" \/ "review" = "review") by (by right).
  split; [done|].
  by destruct (explain_and_review_only_report data (mkRange 10 25) "typescript"
                 fresh_session view_a "review" "Reviewing code quality..."
                 Hact Hsel Htype) as ((Hm & _) & _).
Defined.



(** From the command to the document: [fixCode] answered with a fixed code
    that is not empty, then [acceptSuggestion], put the fixed code in the
    place of the selection; the rest of the text and the other documents
    are what they were, and nothing is pending any more. *)
Theorem fix_then_accept_replaces_the_selection
    data fixed selection languageId st target text :
  activeTextEditor (window st) = Some target ->
  Extension.isEmpty selection = false ->
  documents (workspace st) !! document target = Some text ->
  acceptsEdit (conduct st) (document target) = true ->
  AIService.data_fixed_code data = Some fixed ->
  truthyString (Some fixed) = true ->
  let post := fun _ => AIService.Responded data in
  let st1 := after (Extension.executeCommand post selection languageId false
                      Extension.fixCode) st in
  let st2 := after (Extension.executeCommand post selection languageId false
                      Extension.acceptSuggestionCommand) st1 in
  documents (workspace st2) =
    <[document target := replaceRange selection fixed text]> (documents (workspace st)) /\
  appliedEdits (journal st2) =
    appliedEdits (journal st) ++
    [Edit (mkEditor (nextEditorId (window st)) (document target)) selection fixed (Some true)] /\
  idle st2.
Proof.
  intros Hact Hsel Hd Ha Hfixed Htruthy post st1 st2. subst post st1 st2.
  assert (Hcmd : Extension.fixCode ∈ [Extension.fixCode; Extension.addDocumentation;
                                      Extension.refactorCode; Extension.generateTests])
    by apply list_elem_of_here.
  pose proof (command_presents data selection languageId st target Extension.fixCode
                Hact Hsel Hcmd) as H1.
  cbv zeta in H1. destruct H1 as (Hcur & _ & Hw & Hc & Hn & He).
  set (st1 := after (Extension.executeCommand _ selection languageId false Extension.fixCode) st)
    in *.
  rewrite Hfixed in Hcur.
  replace (or_default (Some fixed) _) with fixed in Hcur by (by destruct fixed).
  cbn [generated] in Hcur.
  set (s := mkSuggestion target selection fixed "AI-generated code") in Hcur.
  assert (Hd1 : documents (workspace st1) !! document (editor s) = Some text)
    by (by rewrite Hw).
  assert (Ha1 : acceptsEdit (conduct st1) (document (editor s)) = true)
    by (by rewrite Hc).
  pose proof (accept_applies st1 s text Hcur Hd1 Ha1) as H2. cbv zeta in H2.
  cbn [editor range newCode s] in H2.
  destruct H2 as ((_ & Hm & Hflag & _) & (Hdoc & _) & _ & Hj).
  assert (Hrun : after (Extension.executeCommand (fun _ => AIService.Responded data)
                          selection languageId false Extension.acceptSuggestionCommand) st1
                 = after acceptSuggestion st1)
    by (unfold after, Extension.executeCommand; by rewrite run_await_call).
  rewrite Hrun. split_and!.
  - by rewrite Hdoc, Hw.
  - rewrite Hj, Hn. journal_norm. fold (appliedEdits (journal st1)).
    rewrite He.
    by destruct (default true (autoSave (configuration (workspace st1)))).
  - split; [by rewrite Hm | exact Hflag].
Qed.

Lemma fix_then_accept_replaces_the_selection_witness :
  let data := AIService.mkData (Some "Looks wrong") (Some "fixed()") None None None in
  let post := fun _ : AIService.ReviewRequest => AIService.Responded data in
  (activeTextEditor (window fresh_session) = Some view_a /\
   Extension.isEmpty (mkRange 10 25) = false /\
   documents (workspace fresh_session) !! document view_a = Some alphabet /\
   acceptsEdit (conduct fresh_session) (document view_a) = true /\
   AIService.data_fixed_code data = Some "fixed()" /\
   truthyString (Some "fixed()") = true) /\
  documents (workspace
    (after (Extension.executeCommand post (mkRange 10 25) "typescript" false
              Extension.acceptSuggestionCommand)
       (after (Extension.executeCommand post (mkRange 10 25) "typescript" false
                 Extension.fixCode) fresh_session))) !! "a.ts"
  = Some "0123456789fixed()pqrstuvwxyz".
Proof.
  intros data post.
  assert (Hact : activeTextEditor (window fresh_session) = Some view_a) by reflexivity.
  assert (Hsel : Extension.isEmpty (mkRange 10 25) = false) by reflexivity.
  assert (Hd : documents (workspace fresh_session) !! document view_a = Some alphabet)
    by (vm_compute; reflexivity).
  assert (Ha : acceptsEdit (conduct fresh_session) (document view_a) = true) by reflexivity.
  assert (Hf : AIService.data_fixed_code data = Some "fixed()") by reflexivity.
  assert (Ht : truthyString (Some "fixed()") = true) by reflexivity.
  split; [done|].
  destruct (fix_then_accept_replaces_the_selection data "fixed()" (mkRange 10 25)
              "typescript" fresh_session view_a alphabet Hact Hsel Hd Ha Hf Ht)
    as (Hdoc & _).
  subst post. rewrite Hdoc. rewrite lookup_insert_eq. vm_compute. reflexivity.
Defined.

(** ** A timer that fires late *)

(** What a successful accept leaves of the timers and of the decorations. *)
Lemma accept_keeps_timers st s text :
  currentSuggestion (manager st) = Some s ->
  documents (workspace st) !! document (editor s) = Some text ->
  acceptsEdit (conduct st) (document (editor s)) = true ->
  let st' := after acceptSuggestion st in
  timers (ui st') = timers (ui st) /\
  decorations (window st') = <[editorId (editor s) := []]> ∅.
Proof.
  intros Hs Hd Ha st'. subst st'. unfold after.
  remember (run acceptSuggestion st) as res eqn:E.
  destruct s as [ed r c x]. cbn [editor document range newCode] in *.
  explore E; by conclude res.
Qed.

(** The callback of the timer does not look at the pending suggestion.  When
    the suggestion is accepted before its timer fires, the timer highlights
    the range in the reopened editor all the same: the highlight is there
    with nothing pending, and on text that the edit has changed. *)
Theorem late_timer_highlights_after_accept st s text rest :
  currentSuggestion (manager st) = Some s ->
  documents (workspace st) !! document (editor s) = Some text ->
  acceptsEdit (conduct st) (document (editor s)) = true ->
  timers (ui st) = HighlightOriginal (document (editor s)) (range s) :: rest ->
  let st' := fireTimer (after acceptSuggestion st) in
  currentSuggestion (manager st') = None /\
  hasPendingSuggestion st' = false /\
  decorations (window st') !! nextEditorId (window st) = Some [range s] /\
  documents (workspace st') =
    <[document (editor s) := replaceRange (range s) (newCode s) text]> (documents (workspace st)).
Proof.
  intros Hs Hd Ha Ht st'. subst st'.
  pose proof (accept_applies st s text Hs Hd Ha) as H. cbv zeta in H.
  destruct H as ((_ & Hm & Hflag & _) & (Hdoc & _) & (Hvis & _) & _).
  pose proof (accept_keeps_timers st s text Hs Hd Ha) as H. cbv zeta in H.
  destruct H as (Htim & Hdec).
  set (st1 := after acceptSuggestion st) in *.
  unfold fireTimer, hasPendingSuggestion. rewrite Htim, Ht.
  remember (run (timerCallback (HighlightOriginal (document (editor s)) (range s)))
                (on_ui (with_timers rest) st1)) as res eqn:E.
  unfold_program E. repeat (step E use_facts). rewrite run_Ret in E.
  subst res. simp. rewrite Hm, Hflag, Hdoc. rewrite lookup_insert_eq. by simp.
Qed.

Lemma late_timer_highlights_after_accept_witness :
  (currentSuggestion (manager presented) = Some fix_a /\
   documents (workspace presented) !! document (editor fix_a) = Some alphabet /\
   acceptsEdit (conduct presented) (document (editor fix_a)) = true /\
   timers (ui presented) = [HighlightOriginal (document (editor fix_a)) (range fix_a)]) /\
  decorations (window (fireTimer (after acceptSuggestion presented))) !! 2
  = Some [mkRange 10 25].
Proof.
  assert (Hs : currentSuggestion (manager presented) = Some fix_a)
    by (vm_compute; reflexivity).
  assert (Hd : documents (workspace presented) !! document (editor fix_a) = Some alphabet)
    by (vm_compute; reflexivity).
  assert (Ha : acceptsEdit (conduct presented) (document (editor fix_a)) = true)
    by (vm_compute; reflexivity).
  assert (Ht : timers (ui presented)
               = [HighlightOriginal (document (editor fix_a)) (range fix_a)])
    by (vm_compute; reflexivity).
  split; [done|].
  by destruct (late_timer_highlights_after_accept presented fix_a alphabet [] Hs Hd Ha Ht)
    as (_ & _ & Hdec & _).
Defined.

(** ** Follow-up questions *)

(** [askQuestion] changes nothing of the state, and what it answers or
    throws is never empty: a missing or empty answer of the backend becomes
    'No response from AI', a failure without a reason 'Failed to get AI
    response'. *)
Theorem askQuestion_says_something post code language question previousReview st :
  let outcome := run (AIService.askQuestion post code language question previousReview) st in
  snd outcome = st /\
  match fst outcome with
  | inr answer => truthyString (Some answer) = true
  | inl error => truthyString (Some (message error)) = true
  end.
Proof.
  intros outcome. subst outcome.
  remember (run _ st) as res eqn:E.
  unfold AIService.askQuestion, AIService.getBackendUrl in E. unfold_program E.
  repeat (step E use_facts).
  destruct (post _) as [data|error]; simp in E;
    rewrite ?run_Ret, ?run_Throw in E; subst res; simp; (split; [done|]).
  - by apply or_default_truthy.
  - unfold AIService.askQuestionError. by apply or_default_truthy.
Qed.

